(** * Topic: the client-side mirror of one conversation

    A shallow embedding of [src/topic/topic.ts] (class [Topic]): the message
    cache and the identifier swap done after a publish, the draft pipeline,
    the planning of message deletions and the read/recv watermarks.

    JavaScript objects are shared by reference: a packet handed to
    [publishDraft] is the same object that sits in the message cache.  The
    model therefore keeps packets in a store ([heap]) and lets the cache hold
    references, so that a field written through one alias is seen through the
    other.  Calls that leave the class (the [Tinode] session, the [onData]
    subject, the logger) are recorded in a trace.

    The class [CBuffer] behind the message cache is not among the sources; it
    is modelled from the specification and driven by the comparator the topic
    creates it with. *)

From stdpp Require Import base option list sorting strings gmap.
From Stdlib Require Import ZArith Lia.

Open Scope string_scope.
Open Scope list_scope.
Open Scope Z_scope.

(** ** Data model *)

(** A reference to a [Packet<PubPacketData>] object. *)
Definition ref := nat.

(** Message content is opaque to the topic; only the two questions asked of
    [Drafty] are kept: whether it has attachments, and their references. *)
Record Content := mkContent {
  hasAttachments : bool;
  attachmentRefs : list string
}.

(** [Packet<PubPacketData>], with the fields of [pub] and [pub.data] the topic
    reads or writes.  [seq] is [pub.data.seq]: a number, or [None] for
    [undefined] in a draft that has not been given one. *)
Record Packet := mkPacket {
  seq : option Z;
  ts : option Z;
  from : option string;
  noecho : bool;
  content : Content;
  head_attachments : option (list string);
  sending : bool;
  failed : bool;
  cancelled : bool;
  noForwarding : bool
}.

#[global] Instance Packet_inhabited : Inhabited Packet :=
  populate (mkPacket None None None false (mkContent false []) None
                     false false false false).

Definition set_seq (v : option Z) (p : Packet) : Packet :=
  mkPacket v (ts p) (from p) (noecho p) (content p) (head_attachments p)
           (sending p) (failed p) (cancelled p) (noForwarding p).
Definition set_ts (v : option Z) (p : Packet) : Packet :=
  mkPacket (seq p) v (from p) (noecho p) (content p) (head_attachments p)
           (sending p) (failed p) (cancelled p) (noForwarding p).
Definition set_from (v : option string) (p : Packet) : Packet :=
  mkPacket (seq p) (ts p) v (noecho p) (content p) (head_attachments p)
           (sending p) (failed p) (cancelled p) (noForwarding p).
Definition set_noecho (v : bool) (p : Packet) : Packet :=
  mkPacket (seq p) (ts p) (from p) v (content p) (head_attachments p)
           (sending p) (failed p) (cancelled p) (noForwarding p).
Definition set_head_attachments (v : option (list string)) (p : Packet) : Packet :=
  mkPacket (seq p) (ts p) (from p) (noecho p) (content p) v
           (sending p) (failed p) (cancelled p) (noForwarding p).
Definition set_sending (v : bool) (p : Packet) : Packet :=
  mkPacket (seq p) (ts p) (from p) (noecho p) (content p) (head_attachments p)
           v (failed p) (cancelled p) (noForwarding p).
Definition set_failed (v : bool) (p : Packet) : Packet :=
  mkPacket (seq p) (ts p) (from p) (noecho p) (content p) (head_attachments p)
           (sending p) v (cancelled p) (noForwarding p).
Definition set_cancelled (v : bool) (p : Packet) : Packet :=
  mkPacket (seq p) (ts p) (from p) (noecho p) (content p) (head_attachments p)
           (sending p) (failed p) v (noForwarding p).
Definition set_noForwarding (v : bool) (p : Packet) : Packet :=
  mkPacket (seq p) (ts p) (from p) (noecho p) (content p) (head_attachments p)
           (sending p) (failed p) (cancelled p) v.

(** [DelRange]: [low] is required, [hi] and [all] are optional. *)
Record DelRange := mkDelRange {
  low : Z;
  hi : option Z;
  all : option bool
}.

(** The two watermarks [note] is used with. *)
Inductive What := Recv | Read.

Definition What_name (what : What) : string :=
  match what with Recv => "recv" | Read => "read" end.

(** An entry of [this.users]; [recv] and [read] may be missing. *)
Record User := mkUser {
  recv : option Z;
  read : option Z
}.

Definition watermark (what : What) (u : User) : option Z :=
  match what with Recv => recv u | Read => read u end.

Definition set_watermark (what : What) (v : Z) (u : User) : User :=
  match what with
  | Recv => mkUser (Some v) (read u)
  | Read => mkUser (recv u) (Some v)
  end.

(** A [new Error(message)]. *)
Definition Error := string.

(** The [params] of a control packet. *)
Record Params := mkParams {
  p_seq : option Z;
  p_del : option Z
}.

(** A control packet ([ctrl]) as the topic looks at it. *)
Record Ctrl := mkCtrl {
  code : option Z;
  text : option string;
  ctrl_ts : option Z;
  params : option Params
}.

(** A settled promise. *)
Inductive Promise (A : Type) :=
| Resolved (a : A)
| Rejected (e : Error).
Arguments Resolved {A} a.
Arguments Rejected {A} e.

(** What leaves the topic, in the order it happens.  The last four are calls
    to methods of the class whose bodies are empty in the source
    ([flushMessage(a) { }] and the like): they change nothing, and the trace
    keeps which of them was called with what. *)
Inductive Event :=
| TinodePublishMessage (pub : ref)
| TinodeDelMessages (topic : string) (ranges : list DelRange) (hard : option bool)
| TinodeNote (topic : string) (what : What) (s : Z)
| TinodeLogger (msg : string) (err : option Error)
| MeSetMsgReadRecv (topic : string) (what : What) (s : Z)
| OnDataNext (payload : option ref)
| FlushMessage (s : Z)
| FlushMessageRange (lo h : Z)
| UpdateDeletedRanges
| RouteData (pub : ref).

(** The fields of [Topic] the modelled methods touch. *)
Record Topic := mkTopic {
  name : string;
  subscribed : bool;
  users : gmap string User;
  messages : list ref;
  maxSeq : Z;
  maxDel : Z;
  queuedSeqId : Z
}.

(** What the [Tinode] object answers when asked: the current user, whether a
    'me' topic exists, and the clock behind [new Date()]. *)
Record Tinode := mkTinode {
  currentUserID : string;
  hasMeTopic : bool;
  now : Z
}.

Record World := mkWorld {
  topic : Topic;
  tinode : Tinode;
  heap : gmap ref Packet;
  trace : list Event
}.

Definition with_users (v : gmap string User) (t : Topic) : Topic :=
  mkTopic (name t) (subscribed t) v (messages t) (maxSeq t) (maxDel t) (queuedSeqId t).
Definition with_messages (v : list ref) (t : Topic) : Topic :=
  mkTopic (name t) (subscribed t) (users t) v (maxSeq t) (maxDel t) (queuedSeqId t).
Definition with_maxDel (v : Z) (t : Topic) : Topic :=
  mkTopic (name t) (subscribed t) (users t) (messages t) (maxSeq t) v (queuedSeqId t).

Definition with_topic (f : Topic -> Topic) (w : World) : World :=
  mkWorld (f (topic w)) (tinode w) (heap w) (trace w).
Definition with_heap (f : gmap ref Packet -> gmap ref Packet) (w : World) : World :=
  mkWorld (topic w) (tinode w) (f (heap w)) (trace w).
Definition with_trace (f : list Event -> list Event) (w : World) : World :=
  mkWorld (topic w) (tinode w) (heap w) (f (trace w)).

(** ** Truthiness and comparisons of optional numbers *)

(** [!!x] for a number that may be [undefined]: false for [undefined] and [0]. *)
Definition truthy (x : option Z) : bool :=
  match x with
  | Some z => negb (z =? 0)
  | None => false
  end.

(** [a >= b] and [a < b] on numbers that may be [undefined]: a comparison with
    [undefined] is false. *)
Definition js_ge (a b : option Z) : bool :=
  match a, b with
  | Some x, Some y => y <=? x
  | _, _ => false
  end.

Definition js_lt (a b : option Z) : bool :=
  match a, b with
  | Some x, Some y => x <? y
  | _, _ => false
  end.

(** ** The message cache *)

(** An object the comparator of the cache is called with: a packet, or the
    object literal [{seq: pub.data.seq}] that [swapMessageId] looks for. *)
Inductive Elem :=
| PacketElem (r : ref)
| SeqElem (s : option Z).

(** [c === 0] and [c < 0] for what a comparator answers; [None] is NaN, for
    which both are false. *)
Definition is_zero (c : option Z) : bool :=
  match c with
  | Some z => z =? 0
  | None => false
  end.

Definition is_negative (c : option Z) : bool := js_lt c (Some 0).

(** The class [CBuffer] of [../cbuffer] is not among the sources.  It is
    created with a comparator and the [unique] flag, and holds references to
    the packets put into it. *)
Module CBuffer.

Section Ops.
Variable compare : Elem -> Elem -> option Z.
Variable unique : bool.

(** Modelled from the spec: [find] of the missing [CBuffer], the spec's
    "findBySeq(seq) -> index|not-found", through the comparator: the first
    entry the comparator calls equal to [x]; scans from index [i]. *)
Fixpoint find_from (i : Z) (x : Elem) (buf : list ref) : Z :=
  match buf with
  | [] => -1
  | r :: buf' =>
      if is_zero (compare (PacketElem r) x) then i
      else find_from (i + 1) x buf'
  end.

(** Modelled from the spec: [find] of the missing [CBuffer],
    "findBySeq(seq) -> index|not-found", with [-1] for not found, the value
    [swapMessageId] tests the index against. *)
Definition find (x : Elem) (buf : list ref) : Z := find_from 0 x buf.

(** Modelled from the spec: [length] of the missing [CBuffer], the number of
    entries. *)
Definition length (buf : list ref) : Z := Z.of_nat (List.length buf).

(** Modelled from the spec: [getAt] of the missing [CBuffer], the entry at an
    index. *)
Definition getAt (idx : Z) (buf : list ref) : option ref :=
  if (0 <=? idx) then buf !! Z.to_nat idx else None.

(** Modelled from the spec: [delAt] of the missing [CBuffer], the spec's
    "deleteAt(index)"; an index that is no position of the buffer removes
    nothing. *)
Definition delAt (idx : Z) (buf : list ref) : list ref :=
  if (0 <=? idx) && (idx <? length buf) then delete (Z.to_nat idx) buf
  else buf.

(** Modelled from the spec: the placing done by [put] of the missing
    [CBuffer], "preserving ascending-seq order": before the first entry the
    comparator puts [r] below, at the end when there is none. *)
Fixpoint insert_sorted (r : ref) (buf : list ref) : list ref :=
  match buf with
  | [] => [r]
  | r' :: buf' =>
      if is_negative (compare (PacketElem r) (PacketElem r')) then r :: r' :: buf'
      else r' :: insert_sorted r buf'
  end.

(** Modelled from the spec: [put] of the missing [CBuffer], the spec's
    "insert(entry) places the entry preserving ascending-seq order, rejecting
    (no-op, signal duplicate) if an entry with the same seq already
    exists"; the same seq is what the comparator calls equal. *)
Definition put (r : ref) (buf : list ref) : list ref :=
  if unique && (0 <=? find (PacketElem r) buf) then buf
  else insert_sorted r buf.
End Ops.

End CBuffer.

(** ** State, trace and exceptions *)

(** How a synchronous piece of code ends. *)
Inductive Completion (A : Type) :=
| Normal (a : A)
| Throw (e : Error).
Arguments Normal {A} a.
Arguments Throw {A} e.

Definition M (A : Type) : Type := World -> Completion A * World.

Definition ret {A} (a : A) : M A := fun w => (Normal a, w).

Definition bind {A B} (m : M A) (k : A -> M B) : M B :=
  fun w =>
    match m w with
    | (Normal a, w') => k a w'
    | (Throw e, w') => (Throw e, w')
    end.

Definition throw {A} (e : Error) : M A := fun w => (Throw e, w).

Definition try_catch {A} (m : M A) (handler : Error -> M A) : M A :=
  fun w =>
    match m w with
    | (Normal a, w') => (Normal a, w')
    | (Throw e, w') => handler e w'
    end.

Declare Scope topic_scope.
Delimit Scope topic_scope with topic.
Notation "'do' x <- m ; k" := (bind m (fun x => k))
  (at level 10, x name, m at level 100, k at level 200) : topic_scope.
Notation "m ;; k" := (bind m (fun _ => k))
  (at level 100, k at level 200, right associativity) : topic_scope.
Open Scope topic_scope.

Definition gets {A} (f : World -> A) : M A := fun w => (Normal (f w), w).
Definition modify (f : World -> World) : M unit := fun w => (Normal tt, f w).
Definition emit (e : Event) : M unit := modify (with_trace (fun t => t ++ [e])).

(** Reading and writing a field of the object behind [pub]. *)
Definition deref (h : gmap ref Packet) (pub : ref) : Packet := h !!! pub.
Definition get_pub {A} (f : Packet -> A) (pub : ref) : M A :=
  gets (fun w => f (deref (heap w) pub)).
Definition set_pub (f : Packet -> Packet) (pub : ref) : M unit :=
  modify (with_heap (fun h => <[pub := f (deref h pub)]> h)).

(** The [data.seq] values of the cached messages, in cache order. *)
Definition seq_at (h : gmap ref Packet) (r : ref) : option Z := seq (deref h r).
Definition cache_seqs (w : World) : list (option Z) :=
  map (seq_at (heap w)) (messages (topic w)).

(** ** Methods of [Topic] *)

Definition isSubscribed : M bool := gets (fun w => subscribed (topic w)).

(** Methods whose bodies are empty in the source ([flushMessage(a: any) { }],
    ...): a call changes neither the topic nor the packets, and is put on the
    trace. *)
Definition flushMessage (a : Z) : M unit := emit (FlushMessage a).
Definition flushMessageRange (a b : Z) : M unit := emit (FlushMessageRange a b).
Definition updateDeletedRanges : M unit := emit UpdateDeletedRanges.
Definition routeData (a : ref) : M unit := emit (RouteData a).

(** [getQueuedSeqId() { return 0; }] *)
Definition getQueuedSeqId : M Z := ret 0.

(** [a.seq] of an object handed to the comparator of the cache.  The topic
    keeps the identifier of a packet in [pub.data.seq]; no statement of the
    class gives a packet a [seq] of its own beside [data], so for a packet
    this is [undefined]. *)
Definition top_seq (x : Elem) : option Z :=
  match x with
  | PacketElem _ => None
  | SeqElem s => s
  end.

(** [(a, b) => { return a.seq - b.seq; }], the comparator [messages] is
    created with: NaN ([None]) when either [seq] is [undefined]. *)
Definition compare_seq (a b : Elem) : option Z :=
  match top_seq a, top_seq b with
  | Some x, Some y => Some (x - y)
  | _, _ => None
  end.

(** [swapMessageId(pub, newSeqId)]; [newSeqId] is [ctrl.params.seq] of the
    reply, [None] when the reply has none.  [find] is handed [true] as a
    second argument, of which the specification says nothing; the index it
    returns is only tested by the [if], whose body ([delAt] then [put]) is
    commented out in the source: the one effect is the write to
    [pub.data.seq]. *)
Definition swapMessageId (pub : ref) (newSeqId : option Z) : M unit :=
  do s <- get_pub seq pub;
  do idx <- gets (fun w => CBuffer.find compare_seq (SeqElem s) (messages (topic w)));
  do numMessages <- gets (fun w => CBuffer.length (messages (topic w)));
  set_pub (set_seq newSeqId) pub;;
  if (0 <=? idx) && (idx <? numMessages) then ret tt else ret tt.

(** [this.messages.put(pub)], [this.messages.delAt(this.messages.find(pub))];
    [messages] is [new CBuffer(compare_seq, true)]. *)
Definition messages_put (pub : ref) : M unit :=
  modify (fun w =>
    with_topic (with_messages
      (CBuffer.put compare_seq true pub (messages (topic w)))) w).

Definition messages_delAt_find (pub : ref) : M unit :=
  modify (fun w =>
    with_topic (with_messages
      (CBuffer.delAt (CBuffer.find compare_seq (PacketElem pub) (messages (topic w)))
                     (messages (topic w)))) w).

(** [publishMessage(pub)] up to the [await]: [Some e] when it returns
    [Promise.reject(e)] at once, [None] when the request is on its way. *)
Definition publishMessage_begin (pub : ref) : M (option Error) :=
  do sub <- isSubscribed;
  if negb sub then ret (Some "Cannot publish on inactive topic")
  else
    do c <- get_pub content pub;
    do ha <- get_pub head_attachments pub;
    (if hasAttachments c && negb (bool_decide (is_Some ha))
     then set_pub (set_head_attachments (Some (attachmentRefs c))) pub
     else ret tt);;
    set_pub (set_sending true) pub;;
    set_pub (set_failed false) pub;;
    emit (TinodePublishMessage pub);;
    ret None.

(** [publishMessage(pub)] from the [await] on, given how the session settled
    the request.  Reading [ctrl.params.seq] of a packet without [params]
    throws inside the [try]. *)
Definition publishMessage_end (pub : ref) (reply : Promise Ctrl)
  : M (Promise (option Ctrl)) :=
  try_catch
    (match reply with
     | Rejected err => throw err
     | Resolved ctrl =>
         set_pub (set_sending false) pub;;
         set_pub (set_ts (ctrl_ts ctrl)) pub;;
         match params ctrl with
         | None => throw "TypeError: ctrl.params is undefined"
         | Some ps =>
             swapMessageId pub (p_seq ps);;
             routeData pub;;
             ret (Resolved (Some ctrl))
         end
     end)
    (fun err =>
       emit (TinodeLogger "WARNING: Message rejected by the server" (Some err));;
       set_pub (set_sending false) pub;;
       set_pub (set_failed true) pub;;
       emit (OnDataNext None);;
       ret (Resolved None)).

Definition publishMessage (pub : ref) (reply : Promise Ctrl)
  : M (Promise (option Ctrl)) :=
  do r <- publishMessage_begin pub;
  match r with
  | Some e => ret (Rejected e)
  | None => publishMessage_end pub reply
  end.

(** The object literal [{ code: 300, text: 'cancelled' }]. *)
Definition cancelled_result : Ctrl :=
  mkCtrl (Some 300) (Some "cancelled") None None.

(** [publishDraft(pub, prom)], the part that runs in the call itself.
    [hasProm] tells whether [prom] was given.  [Some e]: the call returned
    [Promise.reject(e)]; [None]: it returned the chained promise. *)
Definition publishDraft_queue (pub : ref) (hasProm : bool) : M (option Error) :=
  do sub <- isSubscribed;
  if negb hasProm && negb sub
  then ret (Some "Cannot publish on inactive topic")
  else
    do s <- get_pub seq pub;
    do seq' <- (if truthy s then ret (default 0 s) else getQueuedSeqId);
    do nf <- get_pub noForwarding pub;
    (if negb nf then
       set_pub (set_noForwarding true) pub;;
       set_pub (set_seq (Some seq')) pub;;
       do d <- gets (fun w => now (tinode w));
       set_pub (set_ts (Some d)) pub;;
       do uid <- gets (fun w => currentUserID (tinode w));
       set_pub (set_from (Some uid)) pub;;
       set_pub (set_noecho true) pub;;
       messages_put pub;;
       emit (OnDataNext (Some pub))
     else ret tt);;
    ret None.

(** The two callbacks given to [then]: what runs once [prom] has settled
    ([Promise.resolve()] when no [prom] was given).  [reply] is the session's
    answer to the publish request, should one be sent. *)
Definition publishDraft_settle (pub : ref) (prom : Promise unit)
    (reply : Promise Ctrl) : M (Promise (option Ctrl)) :=
  match prom with
  | Resolved _ =>
      do c <- get_pub cancelled pub;
      if c then ret (Resolved (Some cancelled_result))
      else publishMessage pub reply
  | Rejected err =>
      emit (TinodeLogger "WARNING: Message draft rejected by the server" (Some err));;
      set_pub (set_sending false) pub;;
      set_pub (set_failed true) pub;;
      messages_delAt_find pub;;
      emit (OnDataNext None);;
      ret (Resolved None)
  end.

(** [publishDraft(pub, prom)] as a whole, when nothing else happens between
    the call and the settling of [prom]. *)
Definition publishDraft (pub : ref) (prom : option (Promise unit))
    (reply : Promise Ctrl) : M (Promise (option Ctrl)) :=
  do r <- publishDraft_queue pub (bool_decide (is_Some prom));
  match r with
  | Some e => ret (Rejected e)
  | None => publishDraft_settle pub (default (Resolved tt) prom) reply
  end.

(** ** Deleting messages *)

(** The comparator given to [ranges.sort]. *)
Definition cmp_ranges (r1 r2 : DelRange) : Z :=
  if low r1 <? low r2 then 1
  else if low r1 =? low r2 then
    (if negb (truthy (hi r2)) || js_ge (hi r1) (hi r2) then 1 else -1)
  else -1.

(** [Array.prototype.sort(comparefn)], as an insertion sort: every element in
    turn moves left past the elements [y] before it for which
    [comparefn(y, x) > 0].  ECMAScript fixes the outcome of a sort only for a
    consistent comparator; [insert_back] works on the reversed prefix. *)
Section ArraySort.
Context {A : Type} (comparefn : A -> A -> Z).

Fixpoint insert_back (x : A) (rprefix : list A) : list A :=
  match rprefix with
  | [] => [x]
  | y :: rest =>
      if 0 <? comparefn y x then y :: insert_back x rest
      else x :: y :: rest
  end.

Definition array_sort (l : list A) : list A :=
  rev (fold_left (fun rprefix x => insert_back x rprefix) l []).
End ArraySort.

Section DelMessages.
(** [AppSettings.LOCAL_SEQ_ID] of [../constants], which is not among the
    sources: identifiers below it are the server's, the others are issued
    locally. *)
Variable LOCAL_SEQ_ID : Z.

(** The callback given to [ranges.reduce]. *)
Definition tosend_step (maxSeq : Z) (out : list DelRange) (r : DelRange)
  : list DelRange :=
  if low r <? LOCAL_SEQ_ID then
    if negb (truthy (hi r)) || js_lt (hi r) (Some LOCAL_SEQ_ID)
    then out ++ [r]
    else out ++ [mkDelRange (low r) (Some (maxSeq + 1)) None]
  else out.

Definition tosend_of (maxSeq : Z) (ranges : list DelRange) : list DelRange :=
  fold_left (tosend_step maxSeq) ranges [].

(** The callback given to [ranges.forEach]. *)
Definition flush_range (r : DelRange) : M unit :=
  if truthy (hi r)
  then flushMessageRange (low r) (default 0 (hi r))
  else flushMessage (low r).

Fixpoint forEach {A} (f : A -> M unit) (l : list A) : M unit :=
  match l with
  | [] => ret tt
  | x :: l' => f x;; forEach f l'
  end.

(** [{ params: { del: 0 } }] *)
Definition nothing_deleted : Ctrl :=
  mkCtrl None None None (Some (mkParams None (Some 0))).

(** What [delMessages] has when it stops to wait: the promise it is about
    to chain on. *)
Inductive DelRequest :=
| DelInactive (e : Error)
| DelSent (sorted tosend : list DelRange)
| DelLocal (sorted : list DelRange) (ctrl : Ctrl).

(** [delMessages(ranges, hard)] up to the [then]. *)
Definition delMessages_begin (ranges : list DelRange) (hard : option bool)
  : M DelRequest :=
  do sub <- isSubscribed;
  if negb sub
  then ret (DelInactive "Cannot delete messages in inactive topic")
  else
    let sorted := array_sort cmp_ranges ranges in
    do m <- gets (fun w => maxSeq (topic w));
    let tosend := tosend_of m sorted in
    if 0 <? Z.of_nat (List.length tosend) then
      do n <- gets (fun w => name (topic w));
      emit (TinodeDelMessages n tosend hard);;
      ret (DelSent sorted tosend)
    else ret (DelLocal sorted nothing_deleted).

(** The callback given to [result.then]; a rejected [result] skips it, and
    an exception inside it rejects the promise [then] returned. *)
Definition delMessages_then (sorted : list DelRange) (result : Promise Ctrl)
  : M (Promise Ctrl) :=
  match result with
  | Rejected e => ret (Rejected e)
  | Resolved ctrl =>
      try_catch
        (match params ctrl with
         | None => throw "TypeError: ctrl.params is undefined"
         | Some ps =>
             do md <- gets (fun w => maxDel (topic w));
             (if js_lt (Some md) (p_del ps)
              then modify (with_topic (with_maxDel (default 0 (p_del ps))))
              else ret tt);;
             forEach flush_range sorted;;
             updateDeletedRanges;;
             emit (OnDataNext None);;
             ret (Resolved ctrl)
         end)
        (fun e => ret (Rejected e))
  end.

(** The whole call, with the session's answer to the delete request (looked
    at only when a request is sent). *)
Definition delMessages (ranges : list DelRange) (hard : option bool)
    (reply : Promise Ctrl) : M (Promise Ctrl) :=
  do rq <- delMessages_begin ranges hard;
  match rq with
  | DelInactive e => ret (Rejected e)
  | DelSent sorted _ => delMessages_then sorted reply
  | DelLocal sorted ctrl => delMessages_then sorted (Resolved ctrl)
  end.
End DelMessages.

(** ** Watermarks *)

(** [note(what, seq)] *)
Definition note (what : What) (s : Z) : M unit :=
  do uid <- gets (fun w => currentUserID (tinode w));
  do us <- gets (fun w => users (topic w));
  (match us !! uid with
   | Some user =>
       if negb (truthy (watermark what user)) || js_lt (watermark what user) (Some s)
       then
         do sub <- isSubscribed;
         do n <- gets (fun w => name (topic w));
         (if sub then emit (TinodeNote n what s)
          else emit (TinodeLogger "INFO: Not sending {note} on inactive topic" None));;
         modify (with_topic (with_users (<[uid := set_watermark what s user]> us)))
       else ret tt
   | None =>
       emit (TinodeLogger (String.append "ERROR: note(): user not found " uid) None)
   end);;
  do me <- gets (fun w => hasMeTopic (tinode w));
  do n <- gets (fun w => name (topic w));
  if me then emit (MeSetMsgReadRecv n what s) else ret tt.

Definition noteRecv (s : Z) : M unit := note Recv s.

Definition noteRead (s : Z) : M unit :=
  do m <- gets (fun w => maxSeq (topic w));
  let s' := if negb (s =? 0) then s else m in
  if 0 <? s' then note Read s' else ret tt.

(** ** Deleting all messages, or the messages of a list *)

Definition Promise_map {A B} (f : A -> B) (p : Promise A) : Promise B :=
  match p with
  | Resolved a => Resolved (f a)
  | Rejected e => Rejected e
  end.

(** The callback given to [list.reduce] in [delMessagesList].  The parameter
    is typed [DelRange[]] in the source, and documented and used as the list
    of the identifiers to delete: [id] is a number here.  The branch that
    would extend the previous range is commented out there, so that branch
    leaves [out] as it is. *)
Definition list_step (out : list DelRange) (id : Z) : list DelRange :=
  match last out with
  | None => out ++ [mkDelRange id None None]
  | Some prev =>
      if (negb (truthy (hi prev)) && negb (id =? low prev + 1))
         || js_lt (hi prev) (Some id)
      then out ++ [mkDelRange id None None]
      else out
  end.

Definition ranges_of_list (ids : list Z) : list DelRange :=
  fold_left list_step ids [].

Section DelMessagesWrappers.
Variable LOCAL_SEQ_ID : Z.

(** [delMessagesAll(hard)]: [Promise.resolve()] when there is nothing to
    delete. *)
Definition delMessagesAll (hard : option bool) (reply : Promise Ctrl)
  : M (Promise (option Ctrl)) :=
  do m <- gets (fun w => maxSeq (topic w));
  if (m =? 0) || (m <=? 0) then ret (Resolved None)
  else
    do r <- delMessages LOCAL_SEQ_ID
              [mkDelRange 1 (Some (m + 1)) (Some true)] hard reply;
    ret (Promise_map Some r).

(** [delMessagesList(list, hard)] *)
Definition delMessagesList (ids : list Z) (hard : option bool)
    (reply : Promise Ctrl) : M (Promise Ctrl) :=
  delMessages LOCAL_SEQ_ID (ranges_of_list ids) hard reply.
End DelMessagesWrappers.

(** [subscriber(uid)] *)
Definition subscriber (uid : string) : M (option User) :=
  gets (fun w => users (topic w) !! uid).

(** ** Subscription and metadata *)

(** An access mode as it comes in a reply; the topic only passes it on. *)
Definition Acs := string.

(** [params.sub] of [setMeta]: the fields the topic reads or writes, and
    the rest of what the caller put there. *)
Record SubParams := mkSubParams {
  sub_user : option string;
  sub_mode : option string;
  sub_topic : option string;
  sub_acs : option Acs;
  sub_updated : option Z;
  sub_noForwarding : bool
}.

(** The value [archive] writes to [desc.private.arch]: [true] or
    [DEL_CHAR]. *)
Inductive ArchValue := ArchTrue | ArchDel.

(** [params.desc] of [setMeta]; [desc_rest] is what else the caller put
    there, which the topic does not look at. *)
Record DescParams := mkDescParams {
  desc_acs : option Acs;
  desc_updated : option Z;
  desc_private_arch : option ArchValue;
  desc_rest : list (string * string)
}.

(** [{} as any] *)
Definition empty_desc : DescParams := mkDescParams None None None [].

Record SetParams := mkSetParams {
  sp_tags : option (list string);
  sp_sub : option SubParams;
  sp_desc : option DescParams;
  sp_cred : option string
}.

(** The reply to [setMeta] as the topic looks at it.  [mc_params] is [None]
    without [params], [Some None] with [params] that have no [acs]. *)
Record MetaCtrl := mkMetaCtrl {
  mc_code : option Z;
  mc_ts : option Z;
  mc_params : option (option Acs)
}.

(** Calls of the methods below that leave the topic, and calls to methods of
    the class whose bodies are empty in the source ([resetSub], [gone],
    [processMetaSub], [processMetaDesc], [processMetaTags],
    [processMetaCreds]).  [OnSubsUpdatedNext] carries [Object.keys(users)] as
    a set: the map of the model does not keep the order of insertion. *)
Inductive Call :=
| TinodeLeave (topic : string) (unsub : bool)
| TinodeDelTopic (topic : string) (hard : option bool)
| TinodeDelSubscription (topic : string) (user : string)
| TinodeNoteKeyPress (topic : string)
| TinodeSetMeta (topic : string) (params : SetParams)
| ResetSub
| Gone
| OnSubsUpdatedNext (keys : gset string)
| ProcessMetaSub (subs : list SubParams)
| ProcessMetaDesc (desc : DescParams)
| ProcessMetaTags (tags : list string)
| ProcessMetaCreds (creds : list string) (upd : bool).

(** [this.private]: [None] for [null]; [arch] is the boolean held by
    [private.arch], if it holds one. *)
Record PrivateData := mkPrivateData {
  arch : option bool
}.

(** The world together with the calls above and the [private] field. *)
Record Live := mkLive {
  world : World;
  calls : list Call;
  private_data : option PrivateData
}.

Definition LM (A : Type) : Type := Live -> Completion A * Live.

Definition retS {A} (a : A) : LM A := fun s => (Normal a, s).

Definition bindS {A B} (m : LM A) (k : A -> LM B) : LM B :=
  fun s =>
    match m s with
    | (Normal a, s') => k a s'
    | (Throw e, s') => (Throw e, s')
    end.

Definition throwS {A} (e : Error) : LM A := fun s => (Throw e, s).

(** A method of the first part, run on the world of a [Live]. *)
Definition liftS {A} (m : M A) : LM A :=
  fun s =>
    match m (world s) with
    | (c, w') => (c, mkLive w' (calls s) (private_data s))
    end.

Definition call (c : Call) : LM unit :=
  fun s => (Normal tt, mkLive (world s) (calls s ++ [c]) (private_data s)).

(** The promise of an [async] method: an exception rejects it. *)
Definition async {A} (m : LM (Promise A)) : LM (Promise A) :=
  fun s =>
    match m s with
    | (Normal p, s') => (Normal p, s')
    | (Throw e, s') => (Normal (Rejected e), s')
    end.

Declare Scope live_scope.
Delimit Scope live_scope with live.
Notation "'do' x <- m ; k" := (bindS m (fun x => k))
  (at level 10, x name, m at level 100, k at level 200) : live_scope.
Notation "m ;; k" := (bindS m (fun _ => k))
  (at level 100, k at level 200, right associativity) : live_scope.

Definition topic_name : LM string := liftS (gets (fun w => name (topic w))).

(** Methods whose bodies are empty in the source. *)
Definition resetSub : LM unit := call ResetSub.
Definition gone : LM unit := call Gone.
Definition processMetaSub (a : list SubParams) : LM unit := call (ProcessMetaSub a).
Definition processMetaDesc (a : DescParams) : LM unit := call (ProcessMetaDesc a).
Definition processMetaTags (a : list string) : LM unit := call (ProcessMetaTags a).
Definition processMetaCreds (a : list string) (b : bool) : LM unit :=
  call (ProcessMetaCreds a b).

(** [leave(unsub)], with the session's answer to the request. *)
Definition leave (unsub : bool) (reply : Promise Ctrl) : LM (Promise Ctrl) :=
  (do sub <- liftS isSubscribed;
   if negb sub && negb unsub
   then retS (Rejected "Cannot leave inactive topic")
   else
     do n <- topic_name;
     call (TinodeLeave n unsub);;
     match reply with
     | Rejected e => retS (Rejected e)
     | Resolved ctrl =>
         resetSub;;
         (if unsub then gone else retS tt);;
         retS (Resolved ctrl)
     end)%live.

(** [delTopic(hard)] *)
Definition delTopic (hard : option bool) (reply : Promise Ctrl)
  : LM (Promise Ctrl) :=
  (do n <- topic_name;
   call (TinodeDelTopic n hard);;
   match reply with
   | Rejected e => retS (Rejected e)
   | Resolved ctrl => resetSub;; gone;; retS (Resolved ctrl)
   end)%live.

(** [delSubscription(user)] *)
Definition delSubscription (user : string) (reply : Promise Ctrl)
  : LM (Promise Ctrl) :=
  (do sub <- liftS isSubscribed;
   if negb sub
   then retS (Rejected "Cannot delete subscription in inactive topic")
   else
     do n <- topic_name;
     call (TinodeDelSubscription n user);;
     match reply with
     | Rejected e => retS (Rejected e)
     | Resolved ctrl =>
         liftS (modify (fun w =>
           with_topic (with_users (delete user (users (topic w)))) w));;
         do us <- liftS (gets (fun w => users (topic w)));
         call (OnSubsUpdatedNext (dom us));;
         retS (Resolved ctrl)
     end)%live.

(** [noteKeyPress()] *)
Definition noteKeyPress : LM unit :=
  (do sub <- liftS isSubscribed;
   if sub then
     do n <- topic_name;
     call (TinodeNoteKeyPress n)
   else
     liftS (emit (TinodeLogger
                    "INFO: Cannot send notification in inactive topic" None)))%live.

(** Truthiness of a string that may be missing. *)
Definition truthy_str (x : option string) : bool :=
  match x with
  | Some s => negb (String.eqb s "")
  | None => false
  end.

Section SetMeta.
(** [normalizeArray] of [../utilities], which is not among the sources. *)
Variable normalizeArray : list string -> list string.

(** [ctrl.params && ctrl.params.acs], which throws when there is no
    [ctrl]. *)
Definition reply_acs (ctrl : option MetaCtrl) : LM (option Acs) :=
  match ctrl with
  | None => throwS "TypeError: ctrl is undefined"
  | Some c =>
      match mc_params c with
      | Some (Some a) => retS (Some a)
      | _ => retS None
      end
  end.

Definition reply_ts (ctrl : option MetaCtrl) : option Z :=
  match ctrl with
  | Some c => mc_ts c
  | None => None
  end.

(** [ctrl && ctrl.code >= 300] *)
Definition not_modified (ctrl : option MetaCtrl) : bool :=
  match ctrl with
  | Some c => js_ge (mc_code c) (Some 300)
  | None => false
  end.

(** [setMeta(params)]: the request carries the parameters with their tags
    normalized; what comes after the [await] works on the parameters'
    [sub] and [desc]. *)
Definition setMeta (params : SetParams) (reply : Promise (option MetaCtrl))
  : LM (Promise (option MetaCtrl)) :=
  async
  (let tags := normalizeArray <$> sp_tags params in
   do n <- topic_name;
   call (TinodeSetMeta n
           (mkSetParams tags (sp_sub params) (sp_desc params) (sp_cred params)));;
   match reply with
   | Rejected e => retS (Rejected e)
   | Resolved ctrl =>
       if not_modified ctrl then retS (Resolved ctrl)
       else
         do desc <-
           match sp_sub params with
           | Some sub =>
               do acs <- reply_acs ctrl;
               let sub1 :=
                 match acs with
                 | Some a =>
                     mkSubParams (sub_user sub) (sub_mode sub) (Some n)
                                 (Some a) (reply_ts ctrl) (sub_noForwarding sub)
                 | None =>
                     mkSubParams (sub_user sub) (sub_mode sub) (Some n)
                                 (sub_acs sub) (sub_updated sub)
                                 (sub_noForwarding sub)
                 end in
               do uid <- liftS (gets (fun w => currentUserID (tinode w)));
               let own := negb (truthy_str (sub_user sub1)) in
               let sub2 :=
                 mkSubParams (if own then Some uid else sub_user sub1)
                             (sub_mode sub1) (sub_topic sub1) (sub_acs sub1)
                             (sub_updated sub1) true in
               processMetaSub [sub2];;
               retS (if own
                     then Some (default empty_desc (sp_desc params))
                     else sp_desc params)
           | None => retS (sp_desc params)
           end;
         match desc with
         | Some d =>
             do acs <- reply_acs ctrl;
             processMetaDesc
               (match acs with
                | Some a =>
                    mkDescParams (Some a) (reply_ts ctrl)
                                 (desc_private_arch d) (desc_rest d)
                | None => d
                end)
         | None => retS tt
         end;;
         match tags with
         | Some t => processMetaTags t
         | None => retS tt
         end;;
         match sp_cred params with
         | Some c => processMetaCreds [c] true
         | None => retS tt
         end;;
         retS (Resolved ctrl)
   end)%live.

(** [invite(userId, mode)] *)
Definition invite (userId : option string) (mode : option string)
    (reply : Promise (option MetaCtrl)) : LM (Promise (option MetaCtrl)) :=
  setMeta (mkSetParams None
             (Some (mkSubParams userId mode None None None false)) None None)
          reply.

(** What [archive] resolves with: the argument, when nothing is to be done,
    or the reply to [setMeta]. *)
Inductive Archived :=
| AlreadySo (arch : bool)
| Reply (ctrl : option MetaCtrl).

(** [archive(arch)] *)
Definition archive (a : bool) (reply : Promise (option MetaCtrl))
  : LM (Promise Archived) :=
  (do p <- (fun s => (Normal (private_data s), s));
   if match p with
      | Some pd => bool_decide (arch pd = Some a)
      | None => false
      end
   then retS (Resolved (AlreadySo a))
   else
     do r <- setMeta (mkSetParams None None
                        (Some (mkDescParams None None
                                 (Some (if a then ArchTrue else ArchDel)) []))
                        None) reply;
     retS (Promise_map Reply r))%live.
End SetMeta.

(** ** Vocabulary of the statements *)

Definition run {A} (m : M A) (w : World) : World := snd (m w).
Definition result {A} (m : M A) (w : World) : Completion A := fst (m w).

Definition is_flush (e : Event) : bool :=
  match e with
  | FlushMessage _ | FlushMessageRange _ _ => true
  | _ => false
  end.

Definition is_note_sent (e : Event) : bool :=
  match e with TinodeNote _ _ _ => true | _ => false end.

Definition is_publish (e : Event) : bool :=
  match e with TinodePublishMessage _ => true | _ => false end.

Definition is_del_request (e : Event) : bool :=
  match e with TinodeDelMessages _ _ _ => true | _ => false end.

(** The calls to [flushMessage] and [flushMessageRange] in a trace. *)
Definition flush_calls (t : list Event) : list Event := List.filter is_flush t.
(** The [{note}] packets handed to the session. *)
Definition notes_sent (t : list Event) : list Event := List.filter is_note_sent t.
Definition publish_calls (t : list Event) : list Event := List.filter is_publish t.
Definition del_requests (t : list Event) : list Event := List.filter is_del_request t.

(** The flush a range stands for in [ranges.forEach]. *)
Definition flush_call_of (r : DelRange) : Event :=
  match hi r with
  | Some h => if h =? 0 then FlushMessage (low r) else FlushMessageRange (low r) h
  | None => FlushMessage (low r)
  end.

(** [a <= b] for the identifiers of two cached messages, neither missing. *)
Definition seq_le (a b : option Z) : Prop :=
  match a, b with
  | Some x, Some y => x <= y
  | _, _ => False
  end.

(** Ascending order of the cache, the invariant [swapMessageId] is to keep. *)
Definition cache_sorted (w : World) : Prop := Sorted seq_le (cache_seqs w).

(** Ranges in ascending order of [low], as the comment above the sort says. *)
Definition ascending_by_low (l : list DelRange) : Prop :=
  forall i j ri rj, (i < j)%nat -> l !! i = Some ri -> l !! j = Some rj ->
                    low ri <= low rj.

Definition low_le (a b : DelRange) : Prop := low a <= low b.

(** The current user's record. *)
Definition current_user (w : World) : option User :=
  users (topic w) !! currentUserID (tinode w).

(** What [note] passes on to the 'me' topic, when there is one. *)
Definition me_update (w : World) (what : What) (s : Z) : list Event :=
  if hasMeTopic (tinode w) then [MeSetMsgReadRecv (name (topic w)) what s] else [].

(** [pub.cancelled = true], done by the owner of the draft. *)
Definition cancel (pub : ref) : M unit := set_pub (set_cancelled true) pub.

(** The request [delMessages] hands to the session, if any. *)
Definition del_request_of (L : Z) (w : World) (ranges : list DelRange)
    (hard : option bool) : list Event :=
  if subscribed (topic w) then
    match tosend_of L (maxSeq (topic w)) (array_sort cmp_ranges ranges) with
    | [] => []
    | r :: l => [TinodeDelMessages (name (topic w)) (r :: l) hard]
    end
  else [].

Definition is_me_update (e : Event) : bool :=
  match e with MeSetMsgReadRecv _ _ _ => true | _ => false end.

(** The calls to [setMsgReadRecv] of the 'me' topic. *)
Definition me_updates (t : list Event) : list Event := List.filter is_me_update t.

(** The watermark [note] was not called with. *)
Definition other (what : What) : What :=
  match what with Recv => Read | Read => Recv end.

Definition runS {A} (m : LM A) (s : Live) : Live := snd (m s).
Definition resultS {A} (m : LM A) (s : Live) : Completion A := fst (m s).

(** The request [setMeta] hands to the session: the parameters with their
    tags normalized. *)
Definition setMeta_request (normalizeArray : list string -> list string)
    (s : Live) (params : SetParams) : Call :=
  TinodeSetMeta (name (topic (world s)))
    (mkSetParams (normalizeArray <$> sp_tags params) (sp_sub params)
                 (sp_desc params) (sp_cred params)).

(** The access mode a reply carries, if any. *)
Definition acs_of (c : MetaCtrl) : option Acs :=
  match mc_params c with
  | Some (Some a) => Some a
  | _ => None
  end.

(** ** Worlds used in the examples *)

Definition draft (s : Z) : Packet :=
  mkPacket (Some s) None None false (mkContent false []) None
           false false false false.

(** A draft that has not been given an identifier. *)
Definition new_draft : Packet :=
  mkPacket None None None false (mkContent false []) None false false false false.

Definition message (s : Z) : Packet :=
  mkPacket (Some s) (Some 0) (Some "usrB") false (mkContent false []) None
           false false false true.

(** A draft whose content has the attachments [refs] and whose header
    carries [head]. *)
Definition attached (refs : list string) (head : option (list string)) : Packet :=
  mkPacket None None None false (mkContent true refs) head false false false false.

(** A subscribed group topic with nothing cached and two drafts [1] and [2]
    carrying the identifiers [-1] and [-2]. *)
Definition two_drafts : World :=
  mkWorld (mkTopic "grpA" true ∅ [] 0 0 0)
          (mkTinode "usrA" true 1000)
          (<[2%nat := draft (-2)]> (<[1%nat := draft (-1)]> ∅))
          [].

(** The same topic with the messages 3, 4 and 5 cached and [maxSeq = 20],
    and a draft [7] that has no identifier and is not in the cache. *)
Definition three_cached (sub : bool) : World :=
  mkWorld (mkTopic "grpA" sub ∅ [3%nat; 4%nat; 5%nat] 20 0 0)
          (mkTinode "usrA" true 1000)
          (<[7%nat := new_draft]>
             (<[5%nat := message 5]> (<[4%nat := message 4]>
                (<[3%nat := message 3]> ∅))))
          [].

(** A subscribed topic and two drafts with attachments in their content: [8]
    has none in its header, [9] has one there already. *)
Definition with_attachments : World :=
  mkWorld (mkTopic "grpA" true ∅ [] 20 0 0)
          (mkTinode "usrA" true 1000)
          (<[9%nat := attached ["img2"] (Some ["img1"])]>
             (<[8%nat := attached ["img1"; "img2"] None]> ∅))
          [].

(** A topic whose subscriber list holds the current user, [recv] and [read]
    given. *)
Definition with_reader (sub : bool) (u : User) : World :=
  mkWorld (mkTopic "grpA" sub (<["usrA" := u]> ∅) [] 20 0 0)
          (mkTinode "usrA" true 1000) ∅ [].

(** A topic with an empty subscriber list. *)
Definition no_subscribers : World :=
  mkWorld (mkTopic "grpA" true ∅ [] 20 0 0) (mkTinode "usrA" true 1000) ∅ [].

Definition bounded (lo h : Z) : DelRange := mkDelRange lo (Some h) None.
Definition single (lo : Z) : DelRange := mkDelRange lo None None.

Definition del_ok (d : Z) : Ctrl :=
  mkCtrl (Some 200) (Some "ok") None (Some (mkParams None (Some d))).

Definition pub_ok (s : Z) : Ctrl :=
  mkCtrl (Some 202) (Some "accepted") (Some 2000) (Some (mkParams (Some s) None)).

(** The topic of [two_drafts] with both drafts in its cache, in ascending
    order of their identifiers: [-2] before [-1]. *)
Definition drafts_cached : World :=
  mkWorld (mkTopic "grpA" true ∅ [2%nat; 1%nat] 0 0 0)
          (mkTinode "usrA" true 1000)
          (<[2%nat := draft (-2)]> (<[1%nat := draft (-1)]> ∅))
          [].

(** The two cached drafts given the identifiers 5 and 6, [-1] first. *)
Definition drafts_confirmed : World :=
  run (swapMessageId 1%nat (Some 5);; swapMessageId 2%nat (Some 6)) drafts_cached.

(** The value of [LOCAL_SEQ_ID] the examples are run with ([0xFFFFFFF]).  The
    general statements are for every value of the constant. *)
Definition example_LOCAL_SEQ_ID : Z := 268435455.

(** A world with no call made yet and [private] at [null]. *)
Definition live (w : World) : Live := mkLive w [] None.

(** A topic that is archived. *)
Definition archived : Live :=
  mkLive (three_cached true) [] (Some (mkPrivateData (Some true))).

(** A reply to [setMeta] that carries an access mode. *)
Definition meta_ok : MetaCtrl := mkMetaCtrl (Some 200) (Some 3000) (Some (Some "JRWPS")).

(** A [normalizeArray] for the examples: lower case is not modelled, empty
    tags are dropped. *)
Definition drop_empty (tags : list string) : list string :=
  List.filter (fun t => negb (String.eqb t "")) tags.

(** * Properties *)

(** ** The monad *)

Ltac run_M :=
  unfold run, result, bind, ret, gets, modify, emit, throw, try_catch,
    get_pub, set_pub, isSubscribed; simpl.

(** ** [Array.prototype.sort] with the comparator of [delMessages] *)

Section ArraySortFacts.
Context {A : Type} (comparefn : A -> A -> Z).

Lemma insert_back_Permutation (x : A) (rp : list A) :
  Permutation (insert_back comparefn x rp) (x :: rp).
Proof.
  induction rp as [|y rp IH]; simpl; [reflexivity|].
  destruct (0 <? comparefn y x); [|reflexivity].
  rewrite IH. apply perm_swap.
Qed.

Lemma fold_insert_back_Permutation (l acc : list A) :
  Permutation (fold_left (fun rp x => insert_back comparefn x rp) l acc)
              (l ++ acc).
Proof.
  revert acc. induction l as [|x l IH]; intros acc; simpl; [reflexivity|].
  rewrite IH, insert_back_Permutation. symmetry. apply Permutation_middle.
Qed.

Lemma array_sort_Permutation (l : list A) :
  Permutation (array_sort comparefn l) l.
Proof.
  unfold array_sort. rewrite <- Permutation_rev.
  rewrite fold_insert_back_Permutation. by rewrite app_nil_r.
Qed.

Lemma array_sort_length (l : list A) :
  List.length (array_sort comparefn l) = List.length l.
Proof. apply Permutation_length, array_sort_Permutation. Qed.

Lemma array_sort_In (l : list A) (x : A) :
  In x (array_sort comparefn l) <-> In x l.
Proof.
  split; apply Permutation_in;
    [apply array_sort_Permutation | symmetry; apply array_sort_Permutation].
Qed.

Lemma array_sort_nil_iff (l : list A) :
  array_sort comparefn l = [] <-> l = [].
Proof.
  split; intros H.
  - apply Permutation_nil. rewrite <- H. apply array_sort_Permutation.
  - subst. reflexivity.
Qed.
End ArraySortFacts.

(** When [comparefn(y, x) > 0] the comparator of [delMessages] has
    [y.low <= x.low]; when it is not, [y.low >= x.low]. *)
Lemma cmp_ranges_pos (y x : DelRange) : 0 < cmp_ranges y x -> low y <= low x.
Proof.
  unfold cmp_ranges.
  destruct (Z.ltb_spec (low y) (low x)); [lia|].
  destruct (Z.eqb_spec (low y) (low x)); [lia|].
  simpl. lia.
Qed.

Lemma cmp_ranges_nonpos (y x : DelRange) : cmp_ranges y x <= 0 -> low x <= low y.
Proof.
  unfold cmp_ranges.
  destruct (Z.ltb_spec (low y) (low x)); [lia|]. lia.
Qed.

Lemma insert_back_low_sorted (x : DelRange) (rp : list DelRange) :
  StronglySorted low_le rp ->
  StronglySorted low_le (insert_back cmp_ranges x rp).
Proof.
  induction rp as [|y rp IH]; intros Hs; simpl.
  - repeat constructor.
  - apply StronglySorted_inv in Hs as [Hs Hy].
    destruct (Z.ltb_spec 0 (cmp_ranges y x)) as [Hpos|Hnp].
    + constructor; [by apply IH|].
      apply cmp_ranges_pos in Hpos.
      eapply Permutation_Forall; [symmetry; apply insert_back_Permutation|].
      constructor; [exact Hpos | exact Hy].
    + apply cmp_ranges_nonpos in Hnp.
      constructor; [by constructor|].
      constructor; [exact Hnp|].
      eapply Forall_impl; [exact Hy|]. unfold low_le. simpl. intros a Ha. lia.
Qed.

Lemma fold_insert_back_low_sorted (l acc : list DelRange) :
  StronglySorted low_le acc ->
  StronglySorted low_le
    (fold_left (fun rp x => insert_back cmp_ranges x rp) l acc).
Proof.
  revert acc. induction l as [|x l IH]; intros acc Hs; simpl; [exact Hs|].
  by apply IH, insert_back_low_sorted.
Qed.

Lemma StronglySorted_rev_flip {A} (R : A -> A -> Prop) (l : list A) :
  StronglySorted R l -> StronglySorted (fun a b => R b a) (rev l).
Proof.
  induction 1 as [|x l Hs IH Hx]; simpl; [constructor|].
  apply StronglySorted_app. split_and!.
  - intros a b Ha Hb. apply list_elem_of_singleton in Hb as ->.
    rewrite Forall_forall in Hx. apply Hx.
    apply list_elem_of_In, in_rev. by apply list_elem_of_In.
  - exact IH.
  - repeat constructor.
Qed.

(** Whatever the input, the sort of [delMessages] leaves the ranges in
    descending order of [low]. *)
Lemma array_sort_cmp_ranges_descending (ranges : list DelRange) :
  StronglySorted (fun a b => low b <= low a) (array_sort cmp_ranges ranges).
Proof.
  unfold array_sort.
  apply (StronglySorted_rev_flip low_le).
  apply fold_insert_back_low_sorted. constructor.
Qed.

(** ** [swapMessageId] *)

Lemma swapMessageId_eq (pub : ref) (newSeqId : option Z) (w : World) :
  swapMessageId pub newSeqId w =
  (Normal tt, with_heap (fun h => <[pub := set_seq newSeqId (deref h pub)]> h) w).
Proof.
  unfold swapMessageId. run_M.
  by destruct ((0 <=? _) && _).
Qed.

(** The cache holds the same references at the same places afterwards. *)
Lemma swapMessageId_messages (pub : ref) (newSeqId : option Z) (w : World) :
  messages (topic (run (swapMessageId pub newSeqId) w)) = messages (topic w).
Proof. unfold run. by rewrite swapMessageId_eq. Qed.

(** The object behind [pub] carries the new identifier. *)
Lemma swapMessageId_seq (pub : ref) (newSeqId : option Z) (w : World) :
  seq_at (heap (run (swapMessageId pub newSeqId) w)) pub = newSeqId.
Proof.
  unfold run, seq_at, deref. rewrite swapMessageId_eq. simpl.
  by rewrite lookup_total_insert_eq.
Qed.

(** C1: [swapMessageId] never moves an entry: whatever the cache, the packet
    and the new identifier, the cache holds the same references at the same
    places afterwards, and the packet carries the new identifier.  On the
    input of the spec's own test, a cache that holds the drafts -2 and -1 in
    ascending order, [swapMessageId] of -1 to 5 and then of -2 to 6 leaves
    both entries where they were: the cache reads [6; 5] and is no longer
    ascending.  The re-insertion the claim describes is the part of
    [swapMessageId] that the source has commented out. *)
Theorem swapMessageId_leaves_cache_unsorted :
  (forall w pub newSeqId,
     messages (topic (run (swapMessageId pub newSeqId) w)) = messages (topic w) /\
     seq_at (heap (run (swapMessageId pub newSeqId) w)) pub = newSeqId) /\
  cache_seqs drafts_cached = [Some (-2); Some (-1)] /\
  cache_sorted drafts_cached /\
  messages (topic drafts_confirmed) = messages (topic drafts_cached) /\
  cache_seqs drafts_confirmed = [Some 6; Some 5] /\
  ~ cache_sorted drafts_confirmed.
Proof.
  assert (Hq : cache_seqs drafts_cached = [Some (-2); Some (-1)])
    by (vm_compute; reflexivity).
  assert (Hc : cache_seqs drafts_confirmed = [Some 6; Some 5])
    by (vm_compute; reflexivity).
  split_and!.
  - intros w pub newSeqId. split.
    + apply swapMessageId_messages.
    + apply swapMessageId_seq.
  - exact Hq.
  - unfold cache_sorted. rewrite Hq. repeat constructor. simpl. lia.
  - vm_compute. reflexivity.
  - exact Hc.
  - unfold cache_sorted. rewrite Hc. intros Hs.
    apply Sorted_inv in Hs as [_ Hhd]. apply HdRel_inv in Hhd. simpl in Hhd. lia.
Qed.

(** ** The sort of [delMessages] *)

(** C2, at the ranges of the spec's coalescing test: the comparator answers 1
    when [r1.low < r2.low], so the sort puts the larger [low] first and the
    result is not ascending by [low], against the comment above it in the
    source ("Sort ranges in ascending order by low"); the request
    [delMessages] sends lists the ranges in that order. *)
Theorem delMessages_sort_is_descending :
  array_sort cmp_ranges [bounded 1 5; bounded 3 8; single 10]
    = [single 10; bounded 3 8; bounded 1 5] /\
  ~ ascending_by_low (array_sort cmp_ranges [bounded 1 5; bounded 3 8; single 10]) /\
  del_requests (trace (run (delMessages example_LOCAL_SEQ_ID
                              [bounded 1 5; bounded 3 8; single 10] None
                              (Resolved (del_ok 1))) (three_cached true)))
    = [TinodeDelMessages "grpA" [single 10; bounded 3 8; bounded 1 5] None].
Proof.
  split_and!; [vm_compute; reflexivity| |vm_compute; reflexivity].
  intros Hasc.
  specialize (Hasc 0%nat 1%nat (single 10) (bounded 3 8)).
  simpl in Hasc. specialize (Hasc ltac:(lia) eq_refl eq_refl). lia.
Qed.

(** ** The ranges sent to the server *)

Lemma tosend_fold_app (L m : Z) (ranges out : list DelRange) :
  fold_left (tosend_step L m) ranges out = out ++ tosend_of L m ranges.
Proof.
  unfold tosend_of. revert out.
  induction ranges as [|r ranges IH]; intros out; simpl.
  - by rewrite app_nil_r.
  - rewrite (IH (tosend_step L m out r)), (IH (tosend_step L m [] r)).
    rewrite app_assoc. f_equal.
    unfold tosend_step.
    destruct (low r <? L); [|by rewrite app_nil_r].
    by destruct (negb (truthy (hi r)) || js_lt (hi r) (Some L)).
Qed.

Lemma tosend_of_cons (L m : Z) (r : DelRange) (ranges : list DelRange) :
  tosend_of L m (r :: ranges) = tosend_step L m [] r ++ tosend_of L m ranges.
Proof. unfold tosend_of at 1. simpl. apply tosend_fold_app. Qed.

(** Where an entry of [tosend] comes from. *)
Lemma tosend_of_In (L m : Z) (ranges : list DelRange) (r : DelRange) :
  In r (tosend_of L m ranges) ->
  low r < L /\
  ((In r ranges /\
    (truthy (hi r) = false \/ exists h, hi r = Some h /\ h < L)) \/
   (exists r0 h0, In r0 ranges /\ hi r0 = Some h0 /\ L <= h0 /\
                  r = mkDelRange (low r0) (Some (m + 1)) None)).
Proof.
  induction ranges as [|r0 ranges IH]; [intros []|].
  rewrite tosend_of_cons. intros Hin. apply in_app_or in Hin as [Hin|Hin].
  - unfold tosend_step in Hin.
    destruct (Z.ltb_spec (low r0) L) as [Hlow|]; [|destruct Hin].
    destruct (truthy (hi r0)) eqn:Ht; simpl in Hin.
    + destruct (hi r0) as [h0|] eqn:Hhi; [|discriminate]. simpl in Hin.
      destruct (Z.ltb_spec h0 L) as [Hh|Hh]; simpl in Hin;
        destruct Hin as [<-|[]].
      * split; [exact Hlow|]. left. split; [by left|]. right. eauto.
      * split; [exact Hlow|]. right. exists r0, h0.
        split_and!; [by left|exact Hhi|lia|reflexivity].
    + destruct Hin as [<-|[]].
      split; [exact Hlow|]. left. split; [by left|]. by left.
  - destruct (IH Hin) as [Hlow [[Hr Hhi]|(r1 & h1 & Hr & Hhi & Hle & ->)]].
    + split; [exact Hlow|]. left. split; [by right|exact Hhi].
    + split; [exact Hlow|]. right. exists r1, h1. split_and!; auto. by right.
Qed.

(** Ranges that start at or above [LOCAL_SEQ_ID] add nothing. *)
Lemma tosend_of_local (L m : Z) (ranges : list DelRange) :
  Forall (fun r => L <= low r) ranges -> tosend_of L m ranges = [].
Proof.
  induction 1 as [|r ranges Hr _ IH]; [reflexivity|].
  rewrite tosend_of_cons, IH, app_nil_r. unfold tosend_step.
  destruct (Z.ltb_spec (low r) L); [lia|reflexivity].
Qed.

(** C4, amended: every range sent to the server starts below [LOCAL_SEQ_ID]
    and is either an input range passed on as it is, whose [hi] is absent
    (or 0) or below [LOCAL_SEQ_ID], or the range [{low, hi: maxSeq + 1}] that
    stands for an input range whose [hi] is at or above [LOCAL_SEQ_ID].  Only
    an upper bound that reaches the locally issued identifiers is clipped to
    [maxSeq + 1]. *)
Theorem tosend_clips_only_local_hi (L m : Z) (ranges : list DelRange) (r : DelRange) :
  In r (tosend_of L m (array_sort cmp_ranges ranges)) ->
  low r < L /\
  ((In r ranges /\
    (truthy (hi r) = false \/ exists h, hi r = Some h /\ h < L)) \/
   (exists r0 h0, In r0 ranges /\ hi r0 = Some h0 /\ L <= h0 /\
                  r = mkDelRange (low r0) (Some (m + 1)) None)).
Proof.
  intros Hin. apply tosend_of_In in Hin as [Hlow Hshape].
  split; [exact Hlow|].
  destruct Hshape as [[Hr Hhi]|(r0 & h0 & Hr & Hhi & Hle & ->)].
  - left. split; [by apply (array_sort_In cmp_ranges)|exact Hhi].
  - right. exists r0, h0. split_and!; auto. by apply (array_sort_In cmp_ranges).
Qed.

Lemma tosend_clips_only_local_hi_witness :
  In (bounded 1 21)
     (tosend_of example_LOCAL_SEQ_ID 20
        (array_sort cmp_ranges [bounded 1 300000000])) /\
  low (bounded 1 21) < example_LOCAL_SEQ_ID /\
  ((In (bounded 1 21) [bounded 1 300000000] /\
    (truthy (hi (bounded 1 21)) = false \/
     exists h, hi (bounded 1 21) = Some h /\ h < example_LOCAL_SEQ_ID)) \/
   (exists r0 h0, In r0 [bounded 1 300000000] /\
                  hi r0 = Some h0 /\ example_LOCAL_SEQ_ID <= h0 /\
                  bounded 1 21 = mkDelRange (low r0) (Some (20 + 1)) None)).
Proof.
  assert (H : In (bounded 1 21)
                (tosend_of example_LOCAL_SEQ_ID 20
                   (array_sort cmp_ranges [bounded 1 300000000])))
    by (vm_compute; left; reflexivity).
  split; [exact H|].
  exact (tosend_clips_only_local_hi example_LOCAL_SEQ_ID 20
           [bounded 1 300000000] (bounded 1 21) H).
Defined.

(** Whatever the value of [LOCAL_SEQ_ID], some range is sent with a [hi]
    above [maxSeq + 1]. *)
Lemma tosend_hi_above_maxSeq_any (L : Z) :
  In (bounded (L - 5) (L - 1))
     (tosend_of L (L - 3) (array_sort cmp_ranges [bounded (L - 5) (L - 1)])) /\
  (L - 3) + 1 < L - 1.
Proof.
  split; [|lia]. unfold array_sort, tosend_of, tosend_step. simpl.
  destruct (Z.ltb_spec (L - 5) L); [|lia].
  destruct (Z.ltb_spec (L - 1) L); [|lia].
  rewrite orb_true_r. by left.
Qed.

(** C4 as stated fails: with [maxSeq = 20] the range [{low: 1, hi: 100}] is
    sent with its [hi] of 100, above [maxSeq + 1], and the range [{low: 10}]
    is sent without any [hi]. *)
Lemma tosend_hi_above_maxSeq :
  tosend_of example_LOCAL_SEQ_ID 20
    (array_sort cmp_ranges [bounded 1 100; single 10])
    = [single 10; bounded 1 100] /\
  ~ (forall r, In r (tosend_of example_LOCAL_SEQ_ID 20
                       (array_sort cmp_ranges [bounded 1 100; single 10])) ->
               exists h, hi r = Some h /\ h <= 20 + 1).
Proof.
  split; [vm_compute; reflexivity|].
  intros Hall. destruct (Hall (bounded 1 100)) as (h & Hh & Hle).
  - vm_compute. right. left. reflexivity.
  - simpl in Hh. injection Hh as <-. lia.
Qed.

(** ** [delMessages] *)

Lemma flush_range_eq (r : DelRange) : flush_range r = emit (flush_call_of r).
Proof.
  unfold flush_range, flush_call_of, flushMessage, flushMessageRange.
  destruct (hi r) as [h|]; simpl; [|reflexivity].
  by destruct (h =? 0).
Qed.

Lemma forEach_flush_range (l : list DelRange) (w : World) :
  forEach flush_range l w =
  (Normal tt, with_trace (fun t => t ++ map flush_call_of l) w).
Proof.
  revert w. induction l as [|r l IH]; intros [tp tn h t]; simpl.
  - unfold ret, with_trace. simpl. by rewrite app_nil_r.
  - rewrite flush_range_eq. run_M. rewrite IH.
    unfold with_trace. simpl. by rewrite <- app_assoc.
Qed.

Lemma delMessages_begin_inactive (L : Z) ranges hard (w : World) :
  subscribed (topic w) = false ->
  delMessages_begin L ranges hard w =
  (Normal (DelInactive "Cannot delete messages in inactive topic"), w).
Proof. intros Hs. unfold delMessages_begin. run_M. by rewrite Hs. Qed.

Lemma delMessages_begin_local (L : Z) ranges hard (w : World) :
  subscribed (topic w) = true ->
  tosend_of L (maxSeq (topic w)) (array_sort cmp_ranges ranges) = [] ->
  delMessages_begin L ranges hard w =
  (Normal (DelLocal (array_sort cmp_ranges ranges) nothing_deleted), w).
Proof.
  intros Hs Ht. unfold delMessages_begin, bind, isSubscribed, gets, ret.
  rewrite Hs. cbn [negb]. by rewrite Ht.
Qed.

Lemma delMessages_begin_sent (L : Z) ranges hard (w : World) :
  subscribed (topic w) = true ->
  tosend_of L (maxSeq (topic w)) (array_sort cmp_ranges ranges) <> [] ->
  delMessages_begin L ranges hard w =
  (Normal (DelSent (array_sort cmp_ranges ranges)
                   (tosend_of L (maxSeq (topic w)) (array_sort cmp_ranges ranges))),
   with_trace (fun t => t ++ [TinodeDelMessages (name (topic w))
     (tosend_of L (maxSeq (topic w)) (array_sort cmp_ranges ranges)) hard]) w).
Proof.
  intros Hs Ht.
  unfold delMessages_begin, bind, isSubscribed, gets, ret, emit, modify.
  rewrite Hs. cbn [negb].
  destruct (tosend_of L _ _) as [|r l]; [done|]. reflexivity.
Qed.

Lemma delMessages_then_resolved sorted (ctrl : Ctrl) (ps : Params) (w : World) :
  params ctrl = Some ps ->
  delMessages_then sorted (Resolved ctrl) w =
  (Normal (Resolved ctrl),
   with_trace (fun t => t ++ map flush_call_of sorted
                          ++ [UpdateDeletedRanges; OnDataNext None])
     (if js_lt (Some (maxDel (topic w))) (p_del ps)
      then with_topic (with_maxDel (default 0 (p_del ps))) w else w)).
Proof.
  intros Hp.
  unfold delMessages_then, updateDeletedRanges, try_catch, bind, gets, ret,
    emit, modify.
  rewrite Hp.
  destruct (js_lt (Some (maxDel (topic w))) (p_del ps));
    rewrite forEach_flush_range; unfold with_trace; simpl;
    by rewrite <- !app_assoc.
Qed.

(** A rejection goes through [then] untouched, whatever the topic has become
    by the time it arrives. *)
Lemma delMessages_then_rejected sorted (e : Error) (w : World) :
  delMessages_then sorted (Rejected e) w = (Normal (Rejected e), w).
Proof. reflexivity. Qed.

Lemma delMessages_then_no_params sorted (ctrl : Ctrl) (w : World) :
  params ctrl = None ->
  delMessages_then sorted (Resolved ctrl) w =
  (Normal (Rejected "TypeError: ctrl.params is undefined"), w).
Proof. intros Hp. unfold delMessages_then. run_M. by rewrite Hp. Qed.

Lemma flush_calls_app (t1 t2 : list Event) :
  flush_calls (t1 ++ t2) = flush_calls t1 ++ flush_calls t2.
Proof. apply List.filter_app. Qed.

Lemma flush_calls_map (l : list DelRange) :
  flush_calls (map flush_call_of l) = map flush_call_of l.
Proof.
  induction l as [|r l IH]; [reflexivity|]. unfold flush_calls in *. simpl.
  rewrite IH. unfold flush_call_of at 1.
  destruct (hi r) as [h|]; [destruct (h =? 0)|]; reflexivity.
Qed.

Lemma del_requests_app (t1 t2 : list Event) :
  del_requests (t1 ++ t2) = del_requests t1 ++ del_requests t2.
Proof. apply List.filter_app. Qed.

Lemma del_requests_map (l : list DelRange) :
  del_requests (map flush_call_of l) = [].
Proof.
  induction l as [|r l IH]; [reflexivity|]. unfold del_requests in *. simpl.
  rewrite IH. unfold flush_call_of.
  destruct (hi r) as [h|]; [destruct (h =? 0)|]; reflexivity.
Qed.

(** C3: on a subscribed topic, when the ranges give rise to a delete request
    and the session rejects it, [delMessages] returns the rejection, and the
    topic (message cache and [maxDel] included) and the packets are what they
    were; the request is the only thing the call did, so nothing was flushed,
    in part or in whole. *)
Theorem delMessages_rejected_flushes_nothing
    (L : Z) (w : World) (ranges : list DelRange) (hard : option bool) (e : Error) :
  subscribed (topic w) = true ->
  tosend_of L (maxSeq (topic w)) (array_sort cmp_ranges ranges) <> [] ->
  result (delMessages L ranges hard (Rejected e)) w = Normal (Rejected e) /\
  topic (run (delMessages L ranges hard (Rejected e)) w) = topic w /\
  heap (run (delMessages L ranges hard (Rejected e)) w) = heap w /\
  trace (run (delMessages L ranges hard (Rejected e)) w) =
    trace w ++ [TinodeDelMessages (name (topic w))
      (tosend_of L (maxSeq (topic w)) (array_sort cmp_ranges ranges)) hard] /\
  flush_calls (trace (run (delMessages L ranges hard (Rejected e)) w)) =
    flush_calls (trace w).
Proof.
  intros Hs Ht. unfold result, run, delMessages, bind.
  rewrite (delMessages_begin_sent L ranges hard w Hs Ht). simpl.
  split_and!; try reflexivity.
  rewrite flush_calls_app. simpl. by rewrite app_nil_r.
Qed.

Lemma delMessages_rejected_flushes_nothing_witness :
  subscribed (topic (three_cached true)) = true /\
  tosend_of example_LOCAL_SEQ_ID (maxSeq (topic (three_cached true)))
    (array_sort cmp_ranges [bounded 3 5]) <> [] /\
  result (delMessages example_LOCAL_SEQ_ID [bounded 3 5] None (Rejected "denied"))
         (three_cached true) = Normal (Rejected "denied") /\
  topic (run (delMessages example_LOCAL_SEQ_ID [bounded 3 5] None (Rejected "denied"))
             (three_cached true)) = topic (three_cached true).
Proof.
  assert (H1 : subscribed (topic (three_cached true)) = true) by reflexivity.
  assert (H2 : tosend_of example_LOCAL_SEQ_ID (maxSeq (topic (three_cached true)))
                 (array_sort cmp_ranges [bounded 3 5]) <> [])
    by (vm_compute; discriminate).
  destruct (delMessages_rejected_flushes_nothing example_LOCAL_SEQ_ID
              (three_cached true) [bounded 3 5] None "denied" H1 H2)
    as (Hr & Htp & _).
  split_and!; assumption.
Defined.

(** A call that resolves has run the [then] callback to its end: after
    whatever request it sent, it made the flush calls of the sorted ranges,
    in their order. *)
Lemma delMessages_resolved_trace
    (L : Z) (w w' : World) (ranges : list DelRange) (hard : option bool)
    (reply : Promise Ctrl) (ctrl : Ctrl) :
  delMessages L ranges hard reply w = (Normal (Resolved ctrl), w') ->
  exists pre,
    flush_calls pre = [] /\
    trace w' = trace w ++ pre ++ map flush_call_of (array_sort cmp_ranges ranges)
                 ++ [UpdateDeletedRanges; OnDataNext None].
Proof.
  unfold delMessages, bind.
  destruct (subscribed (topic w)) eqn:Hs.
  2:{ rewrite delMessages_begin_inactive by exact Hs. unfold ret. congruence. }
  destruct (tosend_of L (maxSeq (topic w)) (array_sort cmp_ranges ranges))
    as [|r0 l0] eqn:Ht.
  - rewrite (delMessages_begin_local L ranges hard w Hs Ht).
    rewrite (delMessages_then_resolved _ nothing_deleted (mkParams None (Some 0)))
      by reflexivity.
    destruct (js_lt _ _); intros [= _ <-]; exists []; (split; [reflexivity|]);
      reflexivity.
  - assert (Hne : tosend_of L (maxSeq (topic w)) (array_sort cmp_ranges ranges) <> [])
      by (rewrite Ht; discriminate).
    rewrite (delMessages_begin_sent L ranges hard w Hs Hne).
    destruct reply as [c|e]; [|simpl; unfold ret; congruence].
    destruct (params c) as [ps|] eqn:Hp.
    + rewrite (delMessages_then_resolved _ c ps) by exact Hp.
      destruct (js_lt _ _); intros [= _ <-];
        exists [TinodeDelMessages (name (topic w))
                  (tosend_of L (maxSeq (topic w)) (array_sort cmp_ranges ranges))
                  hard];
        (split; [reflexivity|]); simpl; by rewrite <- app_assoc.
    + rewrite delMessages_then_no_params by exact Hp. congruence.
Qed.

(** C5, amended: a range without [hi] stands for the one identifier [low].
    In every call that resolves, the flush calls made are those of the sorted
    ranges, one each; a range with no [hi] gets the call [flushMessage(low)],
    and every [flushMessageRange(lo, h)] comes from a range that has the
    [hi] of [h]. *)
Theorem delMessages_range_without_hi_is_single
    (L : Z) (w w' : World) (ranges : list DelRange) (hard : option bool)
    (reply : Promise Ctrl) (ctrl : Ctrl) :
  delMessages L ranges hard reply w = (Normal (Resolved ctrl), w') ->
  flush_calls (trace w') =
    flush_calls (trace w) ++ map flush_call_of (array_sort cmp_ranges ranges) /\
  (forall r, In r ranges -> hi r = None ->
             In (FlushMessage (low r)) (flush_calls (trace w'))) /\
  (forall lo h, In (FlushMessageRange lo h) (flush_calls (trace w')) ->
                In (FlushMessageRange lo h) (flush_calls (trace w)) \/
                exists r, In r ranges /\ low r = lo /\ hi r = Some h /\ h <> 0).
Proof.
  intros Hrun.
  destruct (delMessages_resolved_trace _ _ _ _ _ _ _ Hrun) as (pre & Hpre & Htr).
  assert (Hfl : flush_calls (trace w') =
          flush_calls (trace w) ++ map flush_call_of (array_sort cmp_ranges ranges)).
  { rewrite Htr, !flush_calls_app, Hpre, flush_calls_map. simpl.
    by rewrite app_nil_r. }
  split_and!; [exact Hfl| |].
  - intros r Hr Hhi. rewrite Hfl. apply in_or_app. right.
    apply in_map_iff. exists r. split.
    + unfold flush_call_of. by rewrite Hhi.
    + by apply array_sort_In.
  - intros lo h Hin. rewrite Hfl in Hin.
    apply in_app_or in Hin as [Hin|Hin]; [by left|right].
    apply in_map_iff in Hin as (r & Hcall & Hr).
    apply array_sort_In in Hr. exists r.
    unfold flush_call_of in Hcall.
    destruct (hi r) as [h'|]; [|discriminate].
    destruct (Z.eqb_spec h' 0); [discriminate|].
    injection Hcall as <- <-. auto.
Qed.

Lemma delMessages_range_without_hi_is_single_witness :
  delMessages example_LOCAL_SEQ_ID [single 3; bounded 4 5] None
              (Resolved (del_ok 1)) (three_cached true)
  = (Normal (Resolved (del_ok 1)),
     run (delMessages example_LOCAL_SEQ_ID [single 3; bounded 4 5] None
                      (Resolved (del_ok 1))) (three_cached true)) /\
  flush_calls (trace (run (delMessages example_LOCAL_SEQ_ID [single 3; bounded 4 5]
                             None (Resolved (del_ok 1))) (three_cached true))) =
    flush_calls (trace (three_cached true)) ++
    map flush_call_of (array_sort cmp_ranges [single 3; bounded 4 5]).
Proof.
  assert (H : delMessages example_LOCAL_SEQ_ID [single 3; bounded 4 5] None
                (Resolved (del_ok 1)) (three_cached true)
              = (Normal (Resolved (del_ok 1)),
                 run (delMessages example_LOCAL_SEQ_ID [single 3; bounded 4 5] None
                        (Resolved (del_ok 1))) (three_cached true)))
    by (vm_compute; reflexivity).
  split; [exact H|].
  exact (proj1 (delMessages_range_without_hi_is_single example_LOCAL_SEQ_ID
                  (three_cached true) _ [single 3; bounded 4 5] None
                  (Resolved (del_ok 1)) (del_ok 1) H)).
Defined.

(** C5 as stated fails: with the messages 3, 4 and 5 cached, deleting the
    range [{low: 3}] succeeds with the one call [flushMessage(3)], and the
    messages 4 and 5 are still cached afterwards. *)
Lemma delMessages_range_without_hi_keeps_later :
  result (delMessages example_LOCAL_SEQ_ID [single 3] None (Resolved (del_ok 1)))
         (three_cached true) = Normal (Resolved (del_ok 1)) /\
  flush_calls (trace (run (delMessages example_LOCAL_SEQ_ID [single 3] None
                             (Resolved (del_ok 1))) (three_cached true)))
    = [FlushMessage 3] /\
  cache_seqs (run (delMessages example_LOCAL_SEQ_ID [single 3] None
                     (Resolved (del_ok 1))) (three_cached true))
    = [Some 3; Some 4; Some 5] /\
  ~ (forall s, In (Some s)
                  (cache_seqs (run (delMessages example_LOCAL_SEQ_ID [single 3]
                                      None (Resolved (del_ok 1)))
                                   (three_cached true))) -> s < 3).
Proof.
  assert (Hc : cache_seqs (run (delMessages example_LOCAL_SEQ_ID [single 3] None
                     (Resolved (del_ok 1))) (three_cached true))
               = [Some 3; Some 4; Some 5])
    by (vm_compute; reflexivity).
  split_and!; [vm_compute; reflexivity | vm_compute; reflexivity | exact Hc |].
  rewrite Hc. intros Hall. specialize (Hall 4). simpl in Hall.
  assert (4 < 3) by (apply Hall; auto). lia.
Qed.

(** A range the reduce callback sends on is one that starts below
    [LOCAL_SEQ_ID]: with a [hi] that is absent, 0 or below [LOCAL_SEQ_ID] it
    goes out as it is, otherwise with [hi] set to [maxSeq + 1]. *)
Lemma tosend_of_below (L m : Z) (r : DelRange) :
  low r < L -> tosend_of L m (array_sort cmp_ranges [r]) <> [].
Proof.
  intros Hlow. unfold array_sort, tosend_of, tosend_step. simpl.
  destruct (Z.ltb_spec (low r) L); [|lia].
  destruct (negb (truthy (hi r)) || js_lt (hi r) (Some L)); discriminate.
Qed.

(** No value of [LOCAL_SEQ_ID] keeps the range [{low: -3, hi: -1}] from the
    server and lets [{low: 1, hi: 5}] through. *)
Lemma tosend_negative_before_positive (L m : Z) :
  tosend_of L m (array_sort cmp_ranges [bounded (-3) (-1)]) = [] ->
  tosend_of L m (array_sort cmp_ranges [bounded 1 5]) = [].
Proof.
  intros Hneg. destruct (Z.lt_ge_cases (-3) L) as [Hlt|Hge].
  - by destruct (tosend_of_below L m (bounded (-3) (-1)) Hlt).
  - unfold array_sort, tosend_of, tosend_step. simpl.
    destruct (Z.ltb_spec 1 L); [lia|reflexivity].
Qed.

(** C6, amended: on a subscribed topic no range sent to the server starts at
    or above [LOCAL_SEQ_ID], where the identifiers the topic issues itself
    begin, whatever the input; and when every input range starts there (and
    there is one), nothing is to be sent, no delete request reaches the
    session, the call resolves with [{params: {del: 0}}], and the flush
    calls of all the ranges are made: there is at least one. *)
Theorem delMessages_local_ranges_not_sent
    (L : Z) (w : World) (ranges : list DelRange) (hard : option bool)
    (reply : Promise Ctrl) :
  subscribed (topic w) = true ->
  (forall r, In r (tosend_of L (maxSeq (topic w)) (array_sort cmp_ranges ranges)) ->
             low r < L) /\
  (ranges <> [] -> Forall (fun r => L <= low r) ranges ->
   tosend_of L (maxSeq (topic w)) (array_sort cmp_ranges ranges) = [] /\
   result (delMessages L ranges hard reply) w = Normal (Resolved nothing_deleted) /\
   del_requests (trace (run (delMessages L ranges hard reply) w)) =
     del_requests (trace w) /\
   flush_calls (trace (run (delMessages L ranges hard reply) w)) =
     flush_calls (trace w) ++ map flush_call_of (array_sort cmp_ranges ranges) /\
   map flush_call_of (array_sort cmp_ranges ranges) <> []).
Proof.
  intros Hs. split.
  - intros r Hin. by apply tosend_of_In in Hin as [Hlow _].
  - intros Hne Hloc.
    assert (Ht : tosend_of L (maxSeq (topic w)) (array_sort cmp_ranges ranges) = []).
    { apply tosend_of_local. rewrite Forall_forall in *.
      intros r Hr. apply Hloc.
      apply list_elem_of_In. apply list_elem_of_In in Hr.
      by apply (array_sort_In cmp_ranges). }
    unfold result, run, delMessages, bind.
    rewrite (delMessages_begin_local L ranges hard w Hs Ht).
    rewrite (delMessages_then_resolved _ nothing_deleted (mkParams None (Some 0)))
      by reflexivity.
    destruct (js_lt _ _); simpl; (split_and!;
      [ exact Ht
      | reflexivity
      | rewrite del_requests_app, del_requests_app, del_requests_map; simpl;
        by rewrite app_nil_r
      | rewrite flush_calls_app, flush_calls_app, flush_calls_map; simpl;
        by rewrite app_nil_r
      | ]).
    all: intros Hnil; apply map_eq_nil in Hnil;
      by apply array_sort_nil_iff in Hnil.
Qed.

Lemma delMessages_local_ranges_not_sent_witness :
  subscribed (topic (three_cached true)) = true /\
  [bounded 268435456 268435458] <> [] /\
  Forall (fun r => example_LOCAL_SEQ_ID <= low r) [bounded 268435456 268435458] /\
  tosend_of example_LOCAL_SEQ_ID (maxSeq (topic (three_cached true)))
    (array_sort cmp_ranges [bounded 268435456 268435458]) = [] /\
  result (delMessages example_LOCAL_SEQ_ID [bounded 268435456 268435458] None
            (Rejected "unused")) (three_cached true)
    = Normal (Resolved nothing_deleted).
Proof.
  assert (H1 : subscribed (topic (three_cached true)) = true) by reflexivity.
  assert (H2 : [bounded 268435456 268435458] <> []) by discriminate.
  assert (H3 : Forall (fun r => example_LOCAL_SEQ_ID <= low r)
                 [bounded 268435456 268435458]).
  { repeat constructor. vm_compute. discriminate. }
  destruct (proj2 (delMessages_local_ranges_not_sent example_LOCAL_SEQ_ID
              (three_cached true) [bounded 268435456 268435458] None
              (Rejected "unused") H1) H2 H3) as (Ht & Hr & _).
  split_and!; assumption.
Defined.

(** C6 as stated fails at the spec's own example: the range
    [{low: -3, hi: -1}] starts below [LOCAL_SEQ_ID], so it is put into
    [tosend] as it is and a delete request for it goes to the session; the
    same happens to [{low: 0}], the range over a draft that [publishDraft]
    queued with the identifier 0. *)
Lemma delMessages_negative_range_is_sent :
  tosend_of example_LOCAL_SEQ_ID (maxSeq (topic (three_cached true)))
    (array_sort cmp_ranges [bounded (-3) (-1)]) = [bounded (-3) (-1)] /\
  del_requests (trace (run (delMessages example_LOCAL_SEQ_ID [bounded (-3) (-1)]
                              None (Resolved (del_ok 1))) (three_cached true)))
    = [TinodeDelMessages "grpA" [bounded (-3) (-1)] None] /\
  del_requests (trace (run (delMessages example_LOCAL_SEQ_ID [single 0]
                              None (Resolved (del_ok 1))) (three_cached true)))
    = [TinodeDelMessages "grpA" [single 0] None] /\
  ~ (tosend_of example_LOCAL_SEQ_ID (maxSeq (topic (three_cached true)))
       (array_sort cmp_ranges [bounded (-3) (-1)]) = [] /\
     del_requests (trace (run (delMessages example_LOCAL_SEQ_ID [bounded (-3) (-1)]
                                 None (Resolved (del_ok 1))) (three_cached true)))
       = []).
Proof.
  split_and!; try (vm_compute; reflexivity).
  intros [Ht _]. vm_compute in Ht. discriminate.
Qed.

(** ** [note] *)

Lemma note_present (w : World) (what : What) (s : Z) (user : User) :
  current_user w = Some user ->
  note what s w =
  (Normal tt,
   if negb (truthy (watermark what user)) || js_lt (watermark what user) (Some s)
   then with_trace
          (fun t => t ++
             (if subscribed (topic w) then TinodeNote (name (topic w)) what s
              else TinodeLogger "INFO: Not sending {note} on inactive topic" None)
             :: me_update w what s)
          (with_topic (with_users
             (<[currentUserID (tinode w) := set_watermark what s user]>
                (users (topic w)))) w)
   else with_trace (fun t => t ++ me_update w what s) w).
Proof.
  unfold current_user. intros Hu.
  unfold note, me_update, bind, gets, ret, emit, modify, isSubscribed.
  rewrite Hu.
  destruct (negb (truthy (watermark what user)) || js_lt (watermark what user) (Some s)).
  - destruct w as [[n sub us ms mx md q] [uid me d] h t]; cbn.
    destruct sub, me; cbn; unfold with_trace; cbn;
      rewrite <- ?app_assoc, ?app_nil_r; reflexivity.
  - destruct w as [[n sub us ms mx md q] [uid me d] h t]; cbn.
    destruct me; cbn; unfold with_trace; cbn;
      rewrite ?app_nil_r; reflexivity.
Qed.

Lemma note_missing (w : World) (what : What) (s : Z) :
  current_user w = None ->
  note what s w =
  (Normal tt,
   with_trace
     (fun t => t ++
        TinodeLogger (String.append "ERROR: note(): user not found "
                                    (currentUserID (tinode w))) None
        :: me_update w what s) w).
Proof.
  unfold current_user. intros Hu.
  unfold note, me_update, bind, gets, ret, emit, modify.
  rewrite Hu. destruct w as [[n sub us ms mx md q] [uid me d] h t]; cbn.
  destruct me; cbn; unfold with_trace; cbn;
    rewrite <- ?app_assoc; reflexivity.
Qed.

Lemma notes_sent_app (t1 t2 : list Event) :
  notes_sent (t1 ++ t2) = notes_sent t1 ++ notes_sent t2.
Proof. apply List.filter_app. Qed.

Lemma notes_sent_me_update (w : World) (what : What) (s : Z) :
  notes_sent (me_update w what s) = [].
Proof. unfold me_update. by destruct (hasMeTopic _). Qed.

(** When [note] writes the watermark. *)
Lemma note_writes (w : World) (what : What) (s : Z) (user : User) :
  current_user w = Some user ->
  (watermark what user = None \/ watermark what user = Some 0 \/
   exists v, watermark what user = Some v /\ v < s) ->
  current_user (run (note what s) w) = Some (set_watermark what s user) /\
  notes_sent (trace (run (note what s) w)) =
    notes_sent (trace w) ++
    (if subscribed (topic w) then [TinodeNote (name (topic w)) what s] else []).
Proof.
  intros Hu Hc. unfold run. rewrite (note_present w what s user Hu).
  assert (Hb : negb (truthy (watermark what user))
               || js_lt (watermark what user) (Some s) = true).
  { destruct Hc as [->|[->|(v & -> & Hv)]]; [reflexivity..|].
    simpl. apply orb_true_iff. right. by apply Z.ltb_lt. }
  rewrite Hb. simpl. split.
  - unfold current_user. simpl. apply lookup_insert_eq.
  - rewrite notes_sent_app. f_equal.
    destruct (subscribed (topic w)); simpl;
      change (List.filter is_note_sent (me_update w what s))
        with (notes_sent (me_update w what s));
      by rewrite notes_sent_me_update.
Qed.

(** When it does not. *)
Lemma note_skips (w : World) (what : What) (s : Z) (user : User) :
  current_user w = Some user ->
  (exists v, watermark what user = Some v /\ v <> 0 /\ s <= v) ->
  topic (run (note what s) w) = topic w /\
  notes_sent (trace (run (note what s) w)) = notes_sent (trace w).
Proof.
  intros Hu (v & Hw & Hv0 & Hle). unfold run.
  rewrite (note_present w what s user Hu).
  assert (Hb : negb (truthy (watermark what user))
               || js_lt (watermark what user) (Some s) = false).
  { rewrite Hw. simpl. apply orb_false_iff. split.
    - destruct (Z.eqb_spec v 0); [done|reflexivity].
    - apply Z.ltb_ge. lia. }
  rewrite Hb. simpl. split; [reflexivity|].
  by rewrite notes_sent_app, notes_sent_me_update, app_nil_r.
Qed.



(** C9, amended: with no record for the current user, [note] hands the
    message "ERROR: note(): user not found <id>" to the session's logger and
    returns normally: nothing is thrown or returned to the caller.  The topic
    (both watermarks of every record) is unchanged and no notification is sent; the
    'me' topic, when there is one, is still told. *)
Theorem note_without_record_logs (w : World) (what : What) (s : Z) :
  current_user w = None ->
  result (note what s) w = Normal tt /\
  topic (run (note what s) w) = topic w /\
  notes_sent (trace (run (note what s) w)) = notes_sent (trace w) /\
  trace (run (note what s) w) =
    trace w ++ TinodeLogger (String.append "ERROR: note(): user not found "
                                           (currentUserID (tinode w))) None
            :: me_update w what s.
Proof.
  intros Hu. unfold result, run. rewrite (note_missing w what s Hu). simpl.
  split_and!; try reflexivity.
  rewrite notes_sent_app. simpl.
  change (List.filter is_note_sent (me_update w what s))
    with (notes_sent (me_update w what s)).
  by rewrite notes_sent_me_update, app_nil_r.
Qed.

Lemma note_without_record_logs_witness :
  current_user no_subscribers = None /\
  result (note Read 5) no_subscribers = Normal tt /\
  topic (run (note Read 5) no_subscribers) = topic no_subscribers.
Proof.
  assert (H : current_user no_subscribers = None) by (vm_compute; reflexivity).
  destruct (note_without_record_logs no_subscribers Read 5 H) as (Hr & Ht & _).
  split_and!; assumption.
Defined.

(** C9 as stated fails: on a topic without subscriber records [note(read, 5)]
    completes normally, so the caller is given no error; the condition only
    reaches the logger. *)
Lemma note_without_record_returns_normally :
  current_user no_subscribers = None /\
  result (note Read 5) no_subscribers = Normal tt /\
  ~ (exists e, result (note Read 5) no_subscribers = Throw e) /\
  trace (run (note Read 5) no_subscribers) =
    [TinodeLogger "ERROR: note(): user not found usrA" None;
     MeSetMsgReadRecv "grpA" Read 5].
Proof.
  split_and!; try (vm_compute; reflexivity).
  intros [e He]. vm_compute in He. discriminate.
Qed.

(** ** Entries of the message cache *)

(** The comparator of [messages] cannot order a packet: with a packet on
    either side its answer is NaN. *)
Lemma compare_seq_packet (r : ref) (x : Elem) :
  compare_seq (PacketElem r) x = None /\ compare_seq x (PacketElem r) = None.
Proof. unfold compare_seq. simpl. by destruct (top_seq x). Qed.

(** So no entry of [messages] is ever found equal to anything, *)
Lemma find_from_compare_seq (i : Z) (x : Elem) (buf : list ref) :
  CBuffer.find_from compare_seq i x buf = -1.
Proof.
  revert i. induction buf as [|r buf IH]; intros i;
    cbn [CBuffer.find_from]; [reflexivity|].
  rewrite (proj1 (compare_seq_packet r x)). apply IH.
Qed.

(** and [put] places every packet at the end of [messages]. *)
Lemma put_compare_seq (unique : bool) (r : ref) (buf : list ref) :
  CBuffer.put compare_seq unique r buf = buf ++ [r].
Proof.
  unfold CBuffer.put, CBuffer.find. rewrite find_from_compare_seq.
  rewrite andb_false_r.
  cbn [andb].
  induction buf as [|r' buf IH]; cbn [CBuffer.insert_sorted]; [reflexivity|].
  rewrite (proj1 (compare_seq_packet r (PacketElem r'))).
  cbn [is_negative js_lt]. by rewrite IH.
Qed.

(** ** [publishDraft] *)

Lemma publish_calls_app (t1 t2 : list Event) :
  publish_calls (t1 ++ t2) = publish_calls t1 ++ publish_calls t2.
Proof. apply List.filter_app. Qed.

(** C8: whenever the promise a draft waits for is fulfilled while the draft's
    [cancelled] flag is set, the chained promise resolves (it is not
    rejected) with the object [{code: 300, text: 'cancelled'}]; the world is
    left as it was, so [tinode.publishMessage] has not been called. *)
Theorem publishDraft_cancelled_not_sent
    (w : World) (pub : ref) (v : unit) (reply : Promise Ctrl) :
  cancelled (deref (heap w) pub) = true ->
  publishDraft_settle pub (Resolved v) reply w =
    (Normal (Resolved (Some cancelled_result)), w) /\
  code cancelled_result = Some 300 /\
  text cancelled_result = Some "cancelled" /\
  publish_calls (trace (run (publishDraft_settle pub (Resolved v) reply) w)) =
    publish_calls (trace w).
Proof.
  intros Hc.
  assert (Heq : publishDraft_settle pub (Resolved v) reply w =
                (Normal (Resolved (Some cancelled_result)), w)).
  { unfold publishDraft_settle, bind, get_pub, gets, ret. by rewrite Hc. }
  split_and!; [exact Heq|reflexivity|reflexivity|].
  unfold run. by rewrite Heq.
Qed.

Lemma publishDraft_cancelled_not_sent_witness :
  cancelled (deref (heap (run (publishDraft_queue 1%nat true;; cancel 1%nat)
                              two_drafts)) 1%nat) = true /\
  publishDraft_settle 1%nat (Resolved tt) (Resolved (pub_ok 5))
    (run (publishDraft_queue 1%nat true;; cancel 1%nat) two_drafts) =
  (Normal (Resolved (Some cancelled_result)),
   run (publishDraft_queue 1%nat true;; cancel 1%nat) two_drafts).
Proof.
  assert (H : cancelled (deref (heap (run (publishDraft_queue 1%nat true;; cancel 1%nat)
                              two_drafts)) 1%nat) = true) by (vm_compute; reflexivity).
  split; [exact H|].
  exact (proj1 (publishDraft_cancelled_not_sent _ 1%nat tt (Resolved (pub_ok 5)) H)).
Defined.

(** The world [publishDraft] leaves when it queues a draft that has not been
    queued before. *)
Lemma publishDraft_queue_fresh (w : World) (pub : ref) (hasProm : bool) :
  negb hasProm && negb (subscribed (topic w)) = false ->
  noForwarding (deref (heap w) pub) = false ->
  exists h',
    publishDraft_queue pub hasProm w =
      (Normal None,
       mkWorld (with_messages (CBuffer.put compare_seq true pub (messages (topic w)))
                              (topic w))
               (tinode w) h' (trace w ++ [OnDataNext (Some pub)])) /\
    seq_at h' pub =
      Some (if truthy (seq_at (heap w) pub) then default 0 (seq_at (heap w) pub)
            else 0) /\
    (forall r, r <> pub -> seq_at h' r = seq_at (heap w) r) /\
    cancelled (deref h' pub) = cancelled (deref (heap w) pub) /\
    noForwarding (deref h' pub) = true.
Proof.
  intros Hgate Hnf.
  unfold publishDraft_queue, messages_put, getQueuedSeqId, bind, isSubscribed,
    get_pub, set_pub, gets, ret, emit, modify.
  rewrite Hgate. unfold seq_at.
  destruct (truthy (seq (deref (heap w) pub))) eqn:Ht;
    rewrite Hnf; cbn [negb];
    (eexists; split; [reflexivity|]);
    cbn [heap topic tinode trace with_heap with_topic with_trace with_messages];
    unfold deref; split_and!.
  - by rewrite !lookup_total_insert_eq.
  - intros r Hr. by rewrite !lookup_total_insert_ne.
  - by rewrite !lookup_total_insert_eq.
  - by rewrite !lookup_total_insert_eq.
  - by rewrite !lookup_total_insert_eq.
  - intros r Hr. by rewrite !lookup_total_insert_ne.
  - by rewrite !lookup_total_insert_eq.
  - by rewrite !lookup_total_insert_eq.
Qed.

Lemma publishMessage_inactive (w : World) (pub : ref) (reply : Promise Ctrl) :
  subscribed (topic w) = false ->
  publishMessage pub reply w =
  (Normal (Rejected "Cannot publish on inactive topic"), w).
Proof.
  intros Hs. unfold publishMessage, publishMessage_begin, bind, isSubscribed,
    gets, ret. by rewrite Hs.
Qed.

(** A packet that has been queued before is left alone. *)
Lemma publishDraft_queue_again (w : World) (pub : ref) (hasProm : bool) :
  negb hasProm && negb (subscribed (topic w)) = false ->
  noForwarding (deref (heap w) pub) = true ->
  publishDraft_queue pub hasProm w = (Normal None, w).
Proof.
  intros Hgate Hnf.
  unfold publishDraft_queue, getQueuedSeqId, bind, isSubscribed, get_pub,
    gets, ret.
  rewrite Hgate.
  destruct (truthy (seq (deref (heap w) pub))); by rewrite Hnf.
Qed.

(** Without a promise the check is made in the call. *)
Lemma publishDraft_no_promise_inactive (w : World) (pub : ref) :
  subscribed (topic w) = false ->
  publishDraft_queue pub false w =
  (Normal (Some "Cannot publish on inactive topic"), w).
Proof.
  intros Hs. unfold publishDraft_queue, bind, isSubscribed, gets, ret.
  by rewrite Hs.
Qed.

(** C10: with a promise given, [publishDraft] does not look at [subscribed]
    in the call: it never returns the rejection there.  A draft not queued
    before ([noForwarding] not yet set) is queued on any topic, subscribed or
    not: its [data.seq] is a number afterwards, its own when it had one and
    what [getQueuedSeqId] answers when it had none; it is handed to
    [messages.put] and is in the cache; and [onData] is handed the draft,
    all within the call.  On a topic that is not subscribed the rejection
    "Cannot publish on inactive topic" comes when the promise has been
    fulfilled and the send is tried. *)
Theorem publishDraft_with_promise_skips_inactive_check (w : World) (pub : ref) :
  result (publishDraft_queue pub true) w = Normal None /\
  (noForwarding (deref (heap w) pub) = false ->
   is_Some (seq_at (heap (run (publishDraft_queue pub true) w)) pub) /\
   (truthy (seq_at (heap w) pub) = true ->
    seq_at (heap (run (publishDraft_queue pub true) w)) pub = seq_at (heap w) pub) /\
   (truthy (seq_at (heap w) pub) = false ->
    exists q, result getQueuedSeqId w = Normal q /\
              seq_at (heap (run (publishDraft_queue pub true) w)) pub = Some q) /\
   noForwarding (deref (heap (run (publishDraft_queue pub true) w)) pub) = true /\
   messages (topic (run (publishDraft_queue pub true) w)) =
     CBuffer.put compare_seq true pub (messages (topic w)) /\
   In pub (messages (topic (run (publishDraft_queue pub true) w))) /\
   trace (run (publishDraft_queue pub true) w) =
     trace w ++ [OnDataNext (Some pub)]) /\
  (forall w' v reply,
     subscribed (topic w') = false ->
     cancelled (deref (heap w') pub) = false ->
     result (publishDraft_settle pub (Resolved v) reply) w'
     = Normal (Rejected "Cannot publish on inactive topic")).
Proof.
  split_and!.
  - destruct (noForwarding (deref (heap w) pub)) eqn:Hnf.
    + unfold result. by rewrite (publishDraft_queue_again w pub true eq_refl Hnf).
    + destruct (publishDraft_queue_fresh w pub true eq_refl Hnf) as (h' & Heq & _).
      unfold result. by rewrite Heq.
  - intros Hnf.
    destruct (publishDraft_queue_fresh w pub true eq_refl Hnf)
      as (h' & Heq & Hseq & Hother & Hcan & Hnf').
    unfold result, run. rewrite Heq. simpl. split_and!.
    + rewrite Hseq. by eexists.
    + intros Ht. rewrite Hseq, Ht.
      destruct (seq_at (heap w) pub); [reflexivity|discriminate].
    + intros Ht. exists 0. split; [reflexivity|]. by rewrite Hseq, Ht.
    + exact Hnf'.
    + reflexivity.
    + rewrite put_compare_seq. apply in_or_app. right. by left.
    + reflexivity.
  - intros w' v reply Hs Hc.
    unfold result, publishDraft_settle, bind, get_pub, gets, ret.
    rewrite Hc. by rewrite publishMessage_inactive.
Qed.

Lemma publishDraft_with_promise_skips_inactive_check_witness :
  noForwarding (deref (heap (three_cached false)) 7%nat) = false /\
  result (publishDraft_queue 7%nat true) (three_cached false) = Normal None /\
  seq_at (heap (three_cached false)) 7%nat = None /\
  is_Some (seq_at (heap (run (publishDraft_queue 7%nat true) (three_cached false)))
                  7%nat) /\
  In 7%nat (messages (topic (run (publishDraft_queue 7%nat true) (three_cached false)))) /\
  trace (run (publishDraft_queue 7%nat true) (three_cached false)) =
    trace (three_cached false) ++ [OnDataNext (Some 7%nat)] /\
  result (publishDraft_settle 7%nat (Resolved tt) (Resolved (pub_ok 6)))
         (run (publishDraft_queue 7%nat true) (three_cached false))
    = Normal (Rejected "Cannot publish on inactive topic").
Proof.
  assert (H : noForwarding (deref (heap (three_cached false)) 7%nat) = false)
    by (vm_compute; reflexivity).
  destruct (publishDraft_with_promise_skips_inactive_check (three_cached false) 7%nat)
    as (Hr & Hq & Hlater).
  destruct (Hq H) as (Hsome & _ & _ & _ & _ & Hin & Ht).
  split_and!; [exact H | exact Hr | vm_compute; reflexivity | exact Hsome
              | exact Hin | exact Ht | ].
  apply Hlater; vm_compute; reflexivity.
Defined.

(** * Further properties *)

Ltac unfold_M :=
  unfold get_pub, set_pub, isSubscribed, emit, bind, ret, gets, modify, throw,
    try_catch.

Ltac world_simpl :=
  unfold with_heap, with_topic, with_trace;
  cbn [heap topic tinode trace fst snd].

Ltac heap_simpl :=
  unfold seq_at, deref;
  rewrite ?lookup_total_insert_eq, ?lookup_total_insert_ne by done.

Ltac unfold_LM :=
  unfold resetSub, gone, processMetaSub, processMetaDesc, processMetaTags,
    processMetaCreds, topic_name, async, bindS, retS, throwS, liftS, call;
  unfold_M; cbv beta; cbn [world calls private_data fst snd].

(** ** [publishMessage] and [publishDraft] *)

(** The state [publishMessage] leaves when the request goes out. *)
Lemma publishMessage_begin_active (w : World) (pub : ref) :
  subscribed (topic w) = true ->
  exists h',
    publishMessage_begin pub w =
      (Normal None,
       mkWorld (topic w) (tinode w) h' (trace w ++ [TinodePublishMessage pub])) /\
    (forall r, r <> pub -> deref h' r = deref (heap w) r) /\
    deref h' pub =
      set_failed false (set_sending true
        (set_head_attachments
           (match head_attachments (deref (heap w) pub) with
            | Some a => Some a
            | None => if hasAttachments (content (deref (heap w) pub))
                      then Some (attachmentRefs (content (deref (heap w) pub)))
                      else None
            end) (deref (heap w) pub))).
Proof.
  intros Hs. unfold publishMessage_begin. unfold_M. cbv beta. rewrite Hs. cbn [negb].
  destruct (head_attachments (deref (heap w) pub)) as [a|] eqn:Ha;
    [|destruct (hasAttachments (content (deref (heap w) pub))) eqn:Hc];
    cbn [andb negb bool_decide decide_rel]; simpl bool_decide; cbn [andb negb];
    rewrite ?andb_false_r; cbn [andb negb];
    (eexists; split; [reflexivity|]); world_simpl; split.
  all: try (intros r Hr; heap_simpl; reflexivity).
  all: heap_simpl; unfold deref in *.
  all: destruct (heap w !!! pub); cbn in *; subst; reflexivity.
Qed.

(** What the callbacks after the [await] do to the world they find. *)
Lemma publishMessage_end_rejected (w : World) (pub : ref) (e : Error) :
  exists h',
    publishMessage_end pub (Rejected e) w =
      (Normal (Resolved None),
       mkWorld (topic w) (tinode w) h'
         (trace w ++ [TinodeLogger "WARNING: Message rejected by the server" (Some e);
                      OnDataNext None])) /\
    (forall r, r <> pub -> deref h' r = deref (heap w) r) /\
    deref h' pub = set_failed true (set_sending false (deref (heap w) pub)).
Proof.
  unfold publishMessage_end. unfold_M. cbv beta. world_simpl.
  eexists. split.
  - rewrite <- app_assoc. reflexivity.
  - world_simpl. split; [intros r Hr|]; heap_simpl; reflexivity.
Qed.

Lemma publishMessage_end_confirmed (w : World) (pub : ref) (ctrl : Ctrl) (ps : Params) :
  params ctrl = Some ps ->
  exists h',
    publishMessage_end pub (Resolved ctrl) w =
      (Normal (Resolved (Some ctrl)),
       mkWorld (topic w) (tinode w) h' (trace w ++ [RouteData pub])) /\
    (forall r, r <> pub -> deref h' r = deref (heap w) r) /\
    deref h' pub =
      set_seq (p_seq ps)
        (set_ts (ctrl_ts ctrl) (set_sending false (deref (heap w) pub))).
Proof.
  intros Hp. unfold publishMessage_end, swapMessageId, routeData. unfold_M.
  cbv beta. rewrite Hp. world_simpl.
  destruct ((0 <=? _) && _); world_simpl;
    (eexists; split; [reflexivity|]); world_simpl;
    (split; [intros r Hr|]); heap_simpl; reflexivity.
Qed.

Lemma publishMessage_end_no_params (w : World) (pub : ref) (ctrl : Ctrl) :
  params ctrl = None ->
  exists h',
    publishMessage_end pub (Resolved ctrl) w =
      (Normal (Resolved None),
       mkWorld (topic w) (tinode w) h'
         (trace w ++ [TinodeLogger "WARNING: Message rejected by the server"
                        (Some "TypeError: ctrl.params is undefined");
                      OnDataNext None])) /\
    (forall r, r <> pub -> deref h' r = deref (heap w) r) /\
    deref h' pub =
      set_failed true (set_sending false
        (set_ts (ctrl_ts ctrl) (set_sending false (deref (heap w) pub)))).
Proof.
  intros Hp. unfold publishMessage_end. unfold_M. cbv beta. rewrite Hp.
  world_simpl. eexists. split.
  - rewrite <- app_assoc. reflexivity.
  - world_simpl. split; [intros r Hr|]; heap_simpl; reflexivity.
Qed.

Lemma publishMessage_active (w : World) (pub : ref) (reply : Promise Ctrl) :
  subscribed (topic w) = true ->
  exists h1,
    publishMessage pub reply w =
      publishMessage_end pub reply
        (mkWorld (topic w) (tinode w) h1 (trace w ++ [TinodePublishMessage pub])) /\
    (forall r, r <> pub -> deref h1 r = deref (heap w) r) /\
    deref h1 pub =
      set_failed false (set_sending true
        (set_head_attachments
           (match head_attachments (deref (heap w) pub) with
            | Some a => Some a
            | None => if hasAttachments (content (deref (heap w) pub))
                      then Some (attachmentRefs (content (deref (heap w) pub)))
                      else None
            end) (deref (heap w) pub))).
Proof.
  intros Hs.
  destruct (publishMessage_begin_active w pub Hs) as (h1 & Heq & Hfr & Hp).
  exists h1. split; [|auto].
  unfold publishMessage, bind. by rewrite Heq.
Qed.

(** X2: when the server rejects a message on a subscribed topic, the promise
    of [publishMessage] resolves with nothing (it is not rejected); the
    packet is marked [failed] and no longer [sending], keeps its identifier
    and stays in the cache, the logger gets a warning and [onData] fires
    without a payload. *)
Theorem publishMessage_rejection_keeps_message
    (w : World) (pub : ref) (e : Error) :
  subscribed (topic w) = true ->
  result (publishMessage pub (Rejected e)) w = Normal (Resolved None) /\
  failed (deref (heap (run (publishMessage pub (Rejected e)) w)) pub) = true /\
  sending (deref (heap (run (publishMessage pub (Rejected e)) w)) pub) = false /\
  seq_at (heap (run (publishMessage pub (Rejected e)) w)) pub = seq_at (heap w) pub /\
  topic (run (publishMessage pub (Rejected e)) w) = topic w /\
  trace (run (publishMessage pub (Rejected e)) w) =
    trace w ++ [TinodePublishMessage pub;
                TinodeLogger "WARNING: Message rejected by the server" (Some e);
                OnDataNext None].
Proof.
  intros Hs.
  destruct (publishMessage_active w pub (Rejected e) Hs) as (h1 & Heq & _ & Hp1).
  destruct (publishMessage_end_rejected
              (mkWorld (topic w) (tinode w) h1 (trace w ++ [TinodePublishMessage pub]))
              pub e) as (h2 & Heq2 & _ & Hp2).
  unfold result, run. rewrite Heq, Heq2. world_simpl. simpl in Hp2.
  unfold seq_at. rewrite Hp2, Hp1. simpl.
  split_and!; try reflexivity. by rewrite <- app_assoc.
Qed.

(** X1: when the server accepts a message on a subscribed topic,
    [publishMessage] resolves with the reply; the packet is no longer
    [sending] and not [failed], carries the time and the identifier of the
    reply, and is handed to [routeData]; the session was asked once and the
    topic is as it was. *)
Theorem publishMessage_confirmed
    (w : World) (pub : ref) (ctrl : Ctrl) (ps : Params) (s : Z) :
  subscribed (topic w) = true ->
  params ctrl = Some ps ->
  p_seq ps = Some s ->
  result (publishMessage pub (Resolved ctrl)) w = Normal (Resolved (Some ctrl)) /\
  sending (deref (heap (run (publishMessage pub (Resolved ctrl)) w)) pub) = false /\
  failed (deref (heap (run (publishMessage pub (Resolved ctrl)) w)) pub) = false /\
  ts (deref (heap (run (publishMessage pub (Resolved ctrl)) w)) pub) = ctrl_ts ctrl /\
  seq_at (heap (run (publishMessage pub (Resolved ctrl)) w)) pub = Some s /\
  topic (run (publishMessage pub (Resolved ctrl)) w) = topic w /\
  trace (run (publishMessage pub (Resolved ctrl)) w) =
    trace w ++ [TinodePublishMessage pub; RouteData pub].
Proof.
  intros Hs Hp Hseq.
  destruct (publishMessage_active w pub (Resolved ctrl) Hs) as (h1 & Heq & _ & Hp1).
  destruct (publishMessage_end_confirmed
              (mkWorld (topic w) (tinode w) h1 (trace w ++ [TinodePublishMessage pub]))
              pub ctrl ps Hp) as (h2 & Heq2 & _ & Hp2).
  unfold result, run. rewrite Heq, Heq2. world_simpl. simpl in Hp2.
  unfold seq_at. rewrite Hp2, Hp1, Hseq. simpl.
  split_and!; try reflexivity. by rewrite <- app_assoc.
Qed.

(** Whatever the reply, what [publishMessage] on a subscribed topic leaves
    behind. *)
Lemma publishMessage_cases (w : World) (pub : ref) (reply : Promise Ctrl) :
  subscribed (topic w) = true ->
  exists r h' evs,
    publishMessage pub reply w =
      (Normal r, mkWorld (topic w) (tinode w) h'
                   (trace w ++ TinodePublishMessage pub :: evs)) /\
    (forall q, q <> pub -> deref h' q = deref (heap w) q) /\
    head_attachments (deref h' pub) =
      match head_attachments (deref (heap w) pub) with
      | Some a => Some a
      | None => if hasAttachments (content (deref (heap w) pub))
                then Some (attachmentRefs (content (deref (heap w) pub)))
                else None
      end /\
    content (deref h' pub) = content (deref (heap w) pub) /\
    cancelled (deref h' pub) = cancelled (deref (heap w) pub) /\
    noForwarding (deref h' pub) = noForwarding (deref (heap w) pub) /\
    from (deref h' pub) = from (deref (heap w) pub) /\
    noecho (deref h' pub) = noecho (deref (heap w) pub) /\
    sending (deref h' pub) = false /\
    publish_calls evs = [].
Proof.
  intros Hs.
  destruct (publishMessage_active w pub reply Hs) as (h1 & Heq & Hfr1 & Hp1).
  rewrite Heq.
  destruct reply as [ctrl|e]; [destruct (params ctrl) as [ps|] eqn:Hp|].
  - destruct (publishMessage_end_confirmed
                (mkWorld (topic w) (tinode w) h1 (trace w ++ [TinodePublishMessage pub]))
                pub ctrl ps Hp) as (h2 & Heq2 & Hfr2 & Hp2).
    rewrite Heq2. simpl in *. do 3 eexists. split_and!.
    + rewrite <- app_assoc. reflexivity.
    + intros q Hq. by rewrite Hfr2, Hfr1.
    + by rewrite Hp2, Hp1.
    + by rewrite Hp2, Hp1.
    + by rewrite Hp2, Hp1.
    + by rewrite Hp2, Hp1.
    + by rewrite Hp2, Hp1.
    + by rewrite Hp2, Hp1.
    + by rewrite Hp2.
    + reflexivity.
  - destruct (publishMessage_end_no_params
                (mkWorld (topic w) (tinode w) h1 (trace w ++ [TinodePublishMessage pub]))
                pub ctrl Hp) as (h2 & Heq2 & Hfr2 & Hp2).
    rewrite Heq2. simpl in *. do 3 eexists. split_and!.
    + rewrite <- app_assoc. reflexivity.
    + intros q Hq. by rewrite Hfr2, Hfr1.
    + by rewrite Hp2, Hp1.
    + by rewrite Hp2, Hp1.
    + by rewrite Hp2, Hp1.
    + by rewrite Hp2, Hp1.
    + by rewrite Hp2, Hp1.
    + by rewrite Hp2, Hp1.
    + by rewrite Hp2.
    + reflexivity.
  - destruct (publishMessage_end_rejected
                (mkWorld (topic w) (tinode w) h1 (trace w ++ [TinodePublishMessage pub]))
                pub e) as (h2 & Heq2 & Hfr2 & Hp2).
    rewrite Heq2. simpl in *. do 3 eexists. split_and!.
    + rewrite <- app_assoc. reflexivity.
    + intros q Hq. by rewrite Hfr2, Hfr1.
    + by rewrite Hp2, Hp1.
    + by rewrite Hp2, Hp1.
    + by rewrite Hp2, Hp1.
    + by rewrite Hp2, Hp1.
    + by rewrite Hp2, Hp1.
    + by rewrite Hp2, Hp1.
    + by rewrite Hp2.
    + reflexivity.
Qed.

(** X3: on a subscribed topic [publishMessage] fills [head.attachments] with
    the references of the content's attachments when the header has none, and
    never replaces attachments the header already has, whatever the reply. *)
Theorem publishMessage_fills_attachments
    (w : World) (pub : ref) (reply : Promise Ctrl) :
  subscribed (topic w) = true ->
  head_attachments (deref (heap (run (publishMessage pub reply) w)) pub) =
    match head_attachments (deref (heap w) pub) with
    | Some a => Some a
    | None => if hasAttachments (content (deref (heap w) pub))
              then Some (attachmentRefs (content (deref (heap w) pub)))
              else None
    end.
Proof.
  intros Hs.
  destruct (publishMessage_cases w pub reply Hs) as (r & h' & evs & Heq & _ & Ha & _).
  unfold run. by rewrite Heq.
Qed.

(** X4: on a subscribed topic, whatever the reply, [publishMessage] asks the
    session once, leaves the topic (cache included) and every other packet
    as they were, keeps the packet's content and its [cancelled] and
    [noForwarding] flags, and leaves [sending] cleared. *)
Theorem publishMessage_touches_only_its_packet
    (w : World) (pub : ref) (reply : Promise Ctrl) :
  subscribed (topic w) = true ->
  topic (run (publishMessage pub reply) w) = topic w /\
  (forall q, q <> pub ->
     deref (heap (run (publishMessage pub reply) w)) q = deref (heap w) q) /\
  cancelled (deref (heap (run (publishMessage pub reply) w)) pub)
    = cancelled (deref (heap w) pub) /\
  noForwarding (deref (heap (run (publishMessage pub reply) w)) pub)
    = noForwarding (deref (heap w) pub) /\
  content (deref (heap (run (publishMessage pub reply) w)) pub)
    = content (deref (heap w) pub) /\
  sending (deref (heap (run (publishMessage pub reply) w)) pub) = false /\
  publish_calls (trace (run (publishMessage pub reply) w)) =
    publish_calls (trace w) ++ [TinodePublishMessage pub].
Proof.
  intros Hs.
  destruct (publishMessage_cases w pub reply Hs)
    as (r & h' & evs & Heq & Hfr & _ & Hc & Hcan & Hnf & _ & _ & Hsend & Hev).
  unfold run. rewrite Heq. simpl. split_and!; auto.
  rewrite publish_calls_app. f_equal.
  change (publish_calls (TinodePublishMessage pub :: evs))
    with (TinodePublishMessage pub :: publish_calls evs).
  by rewrite Hev.
Qed.

(** X5: on a topic that is not subscribed, [publishMessage], [publishDraft]
    without a promise and [delMessages] return a rejected promise with their
    "inactive topic" error and leave everything as it was: no request, no
    flag, nothing queued. *)
Theorem inactive_topic_rejects
    (L : Z) (w : World) (pub : ref) (ranges : list DelRange)
    (hard : option bool) (reply replyDel : Promise Ctrl) :
  subscribed (topic w) = false ->
  publishMessage pub reply w =
    (Normal (Rejected "Cannot publish on inactive topic"), w) /\
  publishDraft pub None reply w =
    (Normal (Rejected "Cannot publish on inactive topic"), w) /\
  delMessages L ranges hard replyDel w =
    (Normal (Rejected "Cannot delete messages in inactive topic"), w).
Proof.
  intros Hs. split_and!.
  - by apply publishMessage_inactive.
  - unfold publishDraft, bind. simpl bool_decide.
    by rewrite publishDraft_no_promise_inactive.
  - unfold delMessages, bind. by rewrite delMessages_begin_inactive.
Qed.

(** The packet of a draft after it has been queued for the first time. *)
Lemma publishDraft_queue_packet (w : World) (pub : ref) (hasProm : bool) :
  negb hasProm && negb (subscribed (topic w)) = false ->
  noForwarding (deref (heap w) pub) = false ->
  exists h',
    publishDraft_queue pub hasProm w =
      (Normal None,
       mkWorld (with_messages (CBuffer.put compare_seq true pub (messages (topic w)))
                              (topic w))
               (tinode w) h' (trace w ++ [OnDataNext (Some pub)])) /\
    (forall r, r <> pub -> deref h' r = deref (heap w) r) /\
    deref h' pub =
      set_noecho true
        (set_from (Some (currentUserID (tinode w)))
           (set_ts (Some (now (tinode w)))
              (set_seq (Some (if truthy (seq (deref (heap w) pub))
                              then default 0 (seq (deref (heap w) pub)) else 0))
                 (set_noForwarding true (deref (heap w) pub))))).
Proof.
  intros Hgate Hnf.
  unfold publishDraft_queue, messages_put, getQueuedSeqId.
  unfold_M. cbv beta. rewrite Hgate.
  destruct (truthy (seq (deref (heap w) pub))) eqn:Ht;
    rewrite Hnf; cbn [negb];
    (eexists; split; [reflexivity|]); world_simpl;
    (split; [intros r Hr; heap_simpl; reflexivity|]);
    heap_simpl; reflexivity.
Qed.


(** X6: queueing the same packet a second time changes nothing: the draft
    is put into the cache and announced once. *)
Theorem publishDraft_queue_twice (w : World) (pub : ref) (hasProm : bool) :
  run (publishDraft_queue pub hasProm) (run (publishDraft_queue pub hasProm) w)
  = run (publishDraft_queue pub hasProm) w.
Proof.
  destruct (negb hasProm && negb (subscribed (topic w))) eqn:Hgate.
  - assert (Hw : run (publishDraft_queue pub hasProm) w = w).
    { unfold run, publishDraft_queue. unfold_M. cbv beta. by rewrite Hgate. }
    by rewrite !Hw.
  - destruct (noForwarding (deref (heap w) pub)) eqn:Hnf.
    + assert (Hw : run (publishDraft_queue pub hasProm) w = w).
      { unfold run. by rewrite publishDraft_queue_again. }
      by rewrite !Hw.
    + destruct (publishDraft_queue_packet w pub hasProm Hgate Hnf)
        as (h' & Heq & Hfr & Hp).
      unfold run at 2 3. rewrite Heq. cbn [snd].
      unfold run. rewrite publishDraft_queue_again; [reflexivity|exact Hgate|].
      cbn [heap]. by rewrite Hp.
Qed.

(** X7: a draft queued for the first time gets the current time, the
    current user as sender and [noecho]; its [sending], [failed] and
    [cancelled] flags and its content stay, and no other packet changes. *)
Theorem publishDraft_queue_stamps (w : World) (pub : ref) (hasProm : bool) :
  negb hasProm && negb (subscribed (topic w)) = false ->
  noForwarding (deref (heap w) pub) = false ->
  ts (deref (heap (run (publishDraft_queue pub hasProm) w)) pub)
    = Some (now (tinode w)) /\
  from (deref (heap (run (publishDraft_queue pub hasProm) w)) pub)
    = Some (currentUserID (tinode w)) /\
  noecho (deref (heap (run (publishDraft_queue pub hasProm) w)) pub) = true /\
  sending (deref (heap (run (publishDraft_queue pub hasProm) w)) pub)
    = sending (deref (heap w) pub) /\
  failed (deref (heap (run (publishDraft_queue pub hasProm) w)) pub)
    = failed (deref (heap w) pub) /\
  cancelled (deref (heap (run (publishDraft_queue pub hasProm) w)) pub)
    = cancelled (deref (heap w) pub) /\
  content (deref (heap (run (publishDraft_queue pub hasProm) w)) pub)
    = content (deref (heap w) pub) /\
  (forall r, r <> pub ->
     deref (heap (run (publishDraft_queue pub hasProm) w)) r = deref (heap w) r).
Proof.
  intros Hgate Hnf.
  destruct (publishDraft_queue_packet w pub hasProm Hgate Hnf)
    as (h' & Heq & Hfr & Hp).
  unfold run. rewrite Heq. cbn [snd heap]. rewrite Hp. simpl.
  split_and!; auto.
Qed.

(** X8: when the promise of a draft is rejected, the draft is never sent:
    the chained promise resolves with nothing (it is not rejected), the
    draft is marked [failed] and not [sending], the logger gets the warning
    with the error, [onData] fires once with the draft and once without
    payload, and no other packet changes. *)
Theorem publishDraft_rejected_promise_not_sent
    (w : World) (pub : ref) (err : Error) (reply : Promise Ctrl) :
  noForwarding (deref (heap w) pub) = false ->
  result (publishDraft pub (Some (Rejected err)) reply) w = Normal (Resolved None) /\
  failed (deref (heap (run (publishDraft pub (Some (Rejected err)) reply) w)) pub)
    = true /\
  sending (deref (heap (run (publishDraft pub (Some (Rejected err)) reply) w)) pub)
    = false /\
  (forall r, r <> pub ->
     deref (heap (run (publishDraft pub (Some (Rejected err)) reply) w)) r
     = deref (heap w) r) /\
  trace (run (publishDraft pub (Some (Rejected err)) reply) w) =
    trace w ++ [OnDataNext (Some pub);
                TinodeLogger "WARNING: Message draft rejected by the server" (Some err);
                OnDataNext None] /\
  publish_calls (trace (run (publishDraft pub (Some (Rejected err)) reply) w))
    = publish_calls (trace w).
Proof.
  intros Hnf.
  destruct (publishDraft_queue_packet w pub true eq_refl Hnf)
    as (h' & Heq & Hfr & Hp).
  unfold result, run, publishDraft, bind. simpl bool_decide. rewrite Heq.
  change (default (Resolved ()) (Some (Rejected err))) with (@Rejected unit err).
  unfold publishDraft_settle, messages_delAt_find. unfold_M. cbv beta.
  world_simpl. cbn [default messages with_messages].
  split_and!.
  - reflexivity.
  - heap_simpl. reflexivity.
  - heap_simpl. reflexivity.
  - intros r Hr. heap_simpl. apply Hfr, Hr.
  - by rewrite <- !app_assoc.
  - rewrite <- !app_assoc, publish_calls_app. simpl. by rewrite app_nil_r.
Qed.

(** ** More on [delMessages] *)

(** Every way a call of [delMessages] can go: a rejection that leaves all
    but the trace as it was, or the whole of the [then] callback. *)
Lemma delMessages_cases
    (L : Z) (w : World) (ranges : list DelRange) (hard : option bool)
    (reply : Promise Ctrl) :
  (exists e,
     delMessages L ranges hard reply w =
       (Normal (Rejected e),
        mkWorld (topic w) (tinode w) (heap w)
                (trace w ++ del_request_of L w ranges hard))) \/
  (exists ctrl ps,
     delMessages L ranges hard reply w =
       (Normal (Resolved ctrl),
        mkWorld
          (if js_lt (Some (maxDel (topic w))) (p_del ps)
           then with_maxDel (default 0 (p_del ps)) (topic w) else topic w)
          (tinode w) (heap w)
          (trace w ++ del_request_of L w ranges hard
             ++ map flush_call_of (array_sort cmp_ranges ranges)
             ++ [UpdateDeletedRanges; OnDataNext None])) /\
     params ctrl = Some ps).
Proof.
  unfold delMessages, bind, del_request_of.
  destruct (subscribed (topic w)) eqn:Hs.
  2:{ left. exists "Cannot delete messages in inactive topic".
      rewrite delMessages_begin_inactive by exact Hs. unfold ret.
      destruct w; simpl. by rewrite app_nil_r. }
  destruct (tosend_of L (maxSeq (topic w)) (array_sort cmp_ranges ranges))
    as [|r0 l0] eqn:Ht.
  - right. exists nothing_deleted, (mkParams None (Some 0)).
    rewrite (delMessages_begin_local L ranges hard w Hs Ht).
    rewrite (delMessages_then_resolved _ nothing_deleted (mkParams None (Some 0)))
      by reflexivity.
    split; [|reflexivity].
    destruct (js_lt _ _); reflexivity.
  - assert (Hne : tosend_of L (maxSeq (topic w)) (array_sort cmp_ranges ranges) <> [])
      by (rewrite Ht; discriminate).
    rewrite (delMessages_begin_sent L ranges hard w Hs Hne). rewrite Ht.
    destruct reply as [c|e].
    + destruct (params c) as [ps|] eqn:Hp.
      * right. exists c, ps.
        rewrite (delMessages_then_resolved _ c ps) by exact Hp.
        split; [|exact Hp].
        destruct (js_lt _ _); unfold with_trace, with_topic; simpl;
          by rewrite <- app_assoc.
      * left. exists "TypeError: ctrl.params is undefined".
        by rewrite delMessages_then_no_params.
    + left. by exists e.
Qed.

Lemma flush_calls_del_request (L : Z) (w : World) ranges hard :
  flush_calls (del_request_of L w ranges hard) = [].
Proof.
  unfold del_request_of. destruct (subscribed _); [|reflexivity].
  by destruct (tosend_of _ _ _).
Qed.

(** X10: no call of [delMessages] lowers [maxDel] or changes [maxSeq]; after
    a call that resolves, [maxDel] is the larger of its old value and the
    deletion identifier of the reply. *)
Theorem delMessages_maxDel
    (L : Z) (w : World) (ranges : list DelRange) (hard : option bool)
    (reply : Promise Ctrl) :
  maxDel (topic w) <= maxDel (topic (run (delMessages L ranges hard reply) w)) /\
  maxSeq (topic (run (delMessages L ranges hard reply) w)) = maxSeq (topic w) /\
  (forall ctrl ps d,
     result (delMessages L ranges hard reply) w = Normal (Resolved ctrl) ->
     params ctrl = Some ps -> p_del ps = Some d ->
     maxDel (topic (run (delMessages L ranges hard reply) w))
       = Z.max (maxDel (topic w)) d).
Proof.
  unfold result, run.
  destruct (delMessages_cases L w ranges hard reply)
    as [(e & Heq)|(ctrl & ps & Heq & Hp)]; rewrite Heq; simpl.
  - split_and!; [lia|reflexivity|discriminate].
  - destruct (p_del ps) as [d|] eqn:Hd; simpl.
    + destruct (Z.ltb_spec (maxDel (topic w)) d); simpl.
      * split_and!; [lia|reflexivity|].
        intros c ps' d' [= <-] Hp' Hd'. rewrite Hp in Hp'. injection Hp' as <-.
        rewrite Hd in Hd'. injection Hd' as <-. simpl. lia.
      * split_and!; [lia|reflexivity|].
        intros c ps' d' [= <-] Hp' Hd'. rewrite Hp in Hp'. injection Hp' as <-.
        rewrite Hd in Hd'. injection Hd' as <-. lia.
    + split_and!; [lia|reflexivity|].
      intros c ps' d' [= <-] Hp' Hd'. rewrite Hp in Hp'. injection Hp' as <-.
      rewrite Hd in Hd'. discriminate.
Qed.

(** X11: a call of [delMessages] that resolves has made one flush call for
    every input range (the sort loses and repeats none), and then, last of
    all, one [updateDeletedRanges()] and one [onData.next()]. *)
Theorem delMessages_flushes_every_range_once
    (L : Z) (w w' : World) (ranges : list DelRange) (hard : option bool)
    (reply : Promise Ctrl) (ctrl : Ctrl) :
  delMessages L ranges hard reply w = (Normal (Resolved ctrl), w') ->
  (exists added,
     flush_calls (trace w') = flush_calls (trace w) ++ added /\
     Permutation added (map flush_call_of ranges)) /\
  (exists before,
     trace w' = trace w ++ before ++ [UpdateDeletedRanges; OnDataNext None] /\
     ~ In UpdateDeletedRanges before /\
     ~ In (OnDataNext None) before).
Proof.
  intros Hrun.
  destruct (delMessages_cases L w ranges hard reply)
    as [(e & Heq)|(c & ps & Heq & Hp)];
    rewrite Heq in Hrun; [discriminate|].
  injection Hrun as <- <-. simpl. split.
  - exists (map flush_call_of (array_sort cmp_ranges ranges)). split.
    + rewrite !flush_calls_app, flush_calls_map, flush_calls_del_request. simpl.
      by rewrite app_nil_r.
    + apply Permutation_map, array_sort_Permutation.
  - exists (del_request_of L w ranges hard
            ++ map flush_call_of (array_sort cmp_ranges ranges)).
    split; [by rewrite <- !app_assoc|].
    assert (Hmap : forall e, In e (map flush_call_of (array_sort cmp_ranges ranges)) ->
                             is_flush e = true).
    { intros e Hin. apply in_map_iff in Hin as (r & <- & _).
      unfold flush_call_of. destruct (hi r) as [h|]; [destruct (h =? 0)|]; reflexivity. }
    assert (Hreq : forall e, In e (del_request_of L w ranges hard) ->
                             is_del_request e = true).
    { intros e. unfold del_request_of. destruct (subscribed _); [|intros []].
      destruct (tosend_of _ _ _); [intros []|]. by intros [<-|[]]. }
    split; intros Hin; apply in_app_or in Hin as [Hin|Hin];
      try (apply Hmap in Hin; discriminate);
      apply Hreq in Hin; discriminate.
Qed.

(** One remote range for each range that starts below [LOCAL_SEQ_ID], with
    its [low], in the order of the ranges. *)
Lemma tosend_of_lows (L m : Z) (ranges : list DelRange) :
  map low (tosend_of L m ranges) =
  map low (List.filter (fun r => low r <? L) ranges).
Proof.
  induction ranges as [|r ranges IH]; [reflexivity|].
  rewrite tosend_of_cons, map_app, IH. simpl. unfold tosend_step.
  destruct (low r <? L); [|reflexivity].
  by destruct (negb (truthy (hi r)) || js_lt (hi r) (Some L)).
Qed.

Lemma filter_Permutation_bool {A} (f : A -> bool) (l l' : list A) :
  Permutation l l' -> Permutation (List.filter f l) (List.filter f l').
Proof.
  induction 1 as [|x l l' _ IH|x y l|l l' l'' _ IH1 _ IH2]; simpl.
  - reflexivity.
  - destruct (f x); [by constructor|exact IH].
  - destruct (f x), (f y); try reflexivity. apply perm_swap.
  - by rewrite IH1.
Qed.

Lemma del_requests_flush (l : list DelRange) :
  del_requests (map flush_call_of l ++ [UpdateDeletedRanges; OnDataNext None]) = [].
Proof. by rewrite del_requests_app, del_requests_map. Qed.

(** X12: [delMessages] sends at most one request.  The request holds one
    range for each input range that starts below [LOCAL_SEQ_ID], with its
    [low]; it is sent whenever the topic is subscribed and there is such a
    range. *)
Theorem delMessages_request_covers_server_ranges
    (L : Z) (w : World) (ranges : list DelRange) (hard : option bool)
    (reply : Promise Ctrl) :
  del_requests (trace (run (delMessages L ranges hard reply) w)) =
    del_requests (trace w) ++ del_request_of L w ranges hard /\
  (forall sent, del_request_of L w ranges hard
                  = [TinodeDelMessages (name (topic w)) sent hard] ->
     map low sent =
       map low (List.filter (fun r => low r <? L) (array_sort cmp_ranges ranges)) /\
     Permutation (map low sent)
                 (map low (List.filter (fun r => low r <? L) ranges))) /\
  (subscribed (topic w) = true ->
   (exists r, In r ranges /\ low r < L) ->
   exists sent, del_request_of L w ranges hard
                  = [TinodeDelMessages (name (topic w)) sent hard]).
Proof.
  assert (Hd : del_requests (del_request_of L w ranges hard)
               = del_request_of L w ranges hard).
  { unfold del_request_of. destruct (subscribed _); [|reflexivity].
    by destruct (tosend_of _ _ _). }
  split_and!.
  - unfold run.
    destruct (delMessages_cases L w ranges hard reply)
      as [(e & Heq)|(c & ps & Heq & Hp)]; rewrite Heq; cbn [snd trace].
    + by rewrite del_requests_app, Hd.
    + rewrite !del_requests_app, del_requests_map, Hd. simpl.
      by rewrite app_nil_r.
  - intros sent. unfold del_request_of.
    destruct (subscribed _); [|discriminate].
    destruct (tosend_of L _ _) as [|r l] eqn:Ht; [discriminate|].
    intros [= <-]. rewrite <- Ht, tosend_of_lows. split; [reflexivity|].
    apply Permutation_map, filter_Permutation_bool, array_sort_Permutation.
  - intros Hs (r & Hin & Hlow). unfold del_request_of. rewrite Hs.
    destruct (tosend_of L _ _) as [|r0 l] eqn:Ht; [|eauto].
    exfalso.
    assert (Hl : map low (tosend_of L (maxSeq (topic w))
                            (array_sort cmp_ranges ranges)) = [])
      by (by rewrite Ht).
    rewrite tosend_of_lows in Hl. apply map_eq_nil in Hl.
    assert (Hf : In r (List.filter (fun r => low r <? L)
                         (array_sort cmp_ranges ranges))).
    { apply filter_In. split; [by apply array_sort_In|by apply Z.ltb_lt]. }
    rewrite Hl in Hf. destruct Hf.
Qed.

(** X13: a reply without [params] makes the callback throw before anything
    is flushed: the promise is rejected and, the request apart, nothing has
    happened. *)
Theorem delMessages_reply_without_params
    (L : Z) (w : World) (ranges : list DelRange) (hard : option bool) (ctrl : Ctrl) :
  subscribed (topic w) = true ->
  tosend_of L (maxSeq (topic w)) (array_sort cmp_ranges ranges) <> [] ->
  params ctrl = None ->
  (exists e, result (delMessages L ranges hard (Resolved ctrl)) w
             = Normal (Rejected e)) /\
  topic (run (delMessages L ranges hard (Resolved ctrl)) w) = topic w /\
  heap (run (delMessages L ranges hard (Resolved ctrl)) w) = heap w /\
  trace (run (delMessages L ranges hard (Resolved ctrl)) w) =
    trace w ++ [TinodeDelMessages (name (topic w))
      (tosend_of L (maxSeq (topic w)) (array_sort cmp_ranges ranges)) hard].
Proof.
  intros Hs Ht Hp. unfold result, run, delMessages, bind.
  rewrite (delMessages_begin_sent L ranges hard w Hs Ht).
  rewrite delMessages_then_no_params by exact Hp. simpl.
  split_and!; eauto.
Qed.

(** ** [delMessagesAll] *)

(** X14: with [maxSeq] at 0 or below, [delMessagesAll] resolves with nothing
    and does nothing, on a topic that is not subscribed too. *)
Theorem delMessagesAll_nothing_to_delete
    (L : Z) (w : World) (hard : option bool) (reply : Promise Ctrl) :
  maxSeq (topic w) <= 0 ->
  result (delMessagesAll L hard reply) w = Normal (Resolved None) /\
  run (delMessagesAll L hard reply) w = w.
Proof.
  intros Hm. unfold result, run, delMessagesAll. unfold_M. cbv beta.
  destruct (Z.eqb_spec (maxSeq (topic w)) 0); simpl; [done|].
  destruct (Z.leb_spec (maxSeq (topic w)) 0); [done|lia].
Qed.

Lemma array_sort_singleton {A} (cmp : A -> A -> Z) (x : A) :
  array_sort cmp [x] = [x].
Proof. reflexivity. Qed.

(** X15: on a subscribed topic with messages ([0 < maxSeq], and
    [1 < LOCAL_SEQ_ID]) [delMessagesAll] sends one request with the one range
    from 1 to [maxSeq + 1], which keeps its [all] flag exactly when
    [maxSeq + 1] is below [LOCAL_SEQ_ID]; on success the flush is
    [flushMessageRange(1, maxSeq + 1)]. *)
Theorem delMessagesAll_one_range
    (L : Z) (w : World) (hard : option bool) (reply : Promise Ctrl) :
  subscribed (topic w) = true ->
  0 < maxSeq (topic w) ->
  1 < L ->
  exists r,
    del_requests (trace (run (delMessagesAll L hard reply) w)) =
      del_requests (trace w) ++ [TinodeDelMessages (name (topic w)) [r] hard] /\
    low r = 1 /\ hi r = Some (maxSeq (topic w) + 1) /\
    (all r = Some true <-> maxSeq (topic w) + 1 < L) /\
    (forall ctrl, reply = Resolved ctrl -> is_Some (params ctrl) ->
       result (delMessagesAll L hard reply) w = Normal (Resolved (Some ctrl)) /\
       flush_calls (trace (run (delMessagesAll L hard reply) w)) =
         flush_calls (trace w) ++ [FlushMessageRange 1 (maxSeq (topic w) + 1)]).
Proof.
  intros Hs Hm HL.
  set (m := maxSeq (topic w)) in *.
  set (rg := mkDelRange 1 (Some (m + 1)) (Some true)).
  assert (Hts : exists r, tosend_of L m (array_sort cmp_ranges [rg]) = [r] /\
                  low r = 1 /\ hi r = Some (m + 1) /\
                  (all r = Some true <-> m + 1 < L)).
  { rewrite array_sort_singleton. unfold tosend_of, tosend_step, rg. simpl.
    destruct (Z.ltb_spec 1 L); [|lia].
    destruct (Z.eqb_spec (m + 1) 0); [lia|]. simpl.
    destruct (Z.ltb_spec (m + 1) L); simpl.
    - eexists. split; [reflexivity|]. simpl. split_and!; try reflexivity.
      split; auto.
    - eexists. split; [reflexivity|]. simpl. split_and!; try reflexivity.
      split; [discriminate|lia]. }
  destruct Hts as (r & Hts & Hlow & Hhi & Hall).
  assert (Hrun : delMessagesAll L hard reply w =
                 match delMessages L [rg] hard reply w with
                 | (Normal p, w') => (Normal (Promise_map Some p), w')
                 | (Throw e, w') => (Throw e, w')
                 end).
  { unfold delMessagesAll. unfold_M. cbv beta. fold m.
    destruct (Z.eqb_spec m 0); [lia|].
    destruct (Z.leb_spec m 0); [lia|]. reflexivity. }
  assert (Hreq : del_request_of L w [rg] hard
                 = [TinodeDelMessages (name (topic w)) [r] hard]).
  { unfold del_request_of. rewrite Hs. fold m. by rewrite Hts. }
  exists r. split_and!; auto.
  - unfold run. rewrite Hrun.
    destruct (delMessages_cases L w [rg] hard reply)
      as [(e & Heq)|(c & ps & Heq & Hp)]; rewrite Heq; cbn [snd trace];
      rewrite Hreq.
    + by rewrite del_requests_app.
    + rewrite !del_requests_app, del_requests_map. simpl.
      by rewrite ?app_nil_r.
  - intros ctrl -> [ps Hp]. unfold result, run. rewrite Hrun.
    unfold delMessages, bind.
    rewrite (delMessages_begin_sent L [rg] hard w Hs)
      by (fold m; rewrite Hts; discriminate).
    rewrite (delMessages_then_resolved _ ctrl ps) by exact Hp.
    split; [reflexivity|].
    rewrite array_sort_singleton. cbn [snd].
    assert (Hfc : flush_call_of rg = FlushMessageRange 1 (m + 1)).
    { unfold flush_call_of, rg. simpl. by destruct (Z.eqb_spec (m + 1) 0); [lia|]. }
    destruct (js_lt _ _); unfold with_trace, with_topic; cbn [trace];
      rewrite !flush_calls_app; simpl; rewrite Hfc; simpl;
      by rewrite !app_nil_r.
Qed.

(** ** [delMessagesList] *)

Lemma list_step_nil (id : Z) : list_step [] id = [single id].
Proof. reflexivity. Qed.

Lemma list_step_snoc (out : list DelRange) (p id : Z) :
  list_step (out ++ [single p]) id =
  if id =? p + 1 then out ++ [single p]
  else (out ++ [single p]) ++ [single id].
Proof.
  unfold list_step. rewrite last_snoc. simpl.
  destruct (id =? p + 1); reflexivity.
Qed.

Lemma fold_list_step (ids : list Z) (out : list DelRange) (p : Z) :
  exists kept,
    sublist kept ids /\
    fold_left list_step ids (out ++ [single p]) = out ++ map single (p :: kept) /\
    ((forall i a b, (p :: ids) !! i = Some a -> (p :: ids) !! S i = Some b ->
                    b <> a + 1) -> kept = ids).
Proof.
  revert out p. induction ids as [|id ids IH]; intros out p; simpl.
  - exists []. split_and!; [constructor|reflexivity|reflexivity].
  - rewrite list_step_snoc. destruct (Z.eqb_spec id (p + 1)) as [Heq|Hne].
    + destruct (IH out p) as (kept & Hsub & Hfold & _).
      exists kept. split_and!; [by apply sublist_cons|exact Hfold|].
      intros Hgap. exfalso. by apply (Hgap 0%nat p id).
    + destruct (IH (out ++ [single p]) id) as (kept & Hsub & Hfold & Hall).
      exists (id :: kept). split_and!; [by apply sublist_skip| |].
      * rewrite Hfold. simpl. by rewrite <- app_assoc.
      * intros Hgap. f_equal. apply Hall. intros i a b Ha Hb.
        by apply (Hgap (S i) a b).
Qed.

Lemma ranges_of_list_kept (ids : list Z) :
  exists kept,
    ranges_of_list ids = map single kept /\
    sublist kept ids /\
    head kept = head ids /\
    ((forall i a b, ids !! i = Some a -> ids !! S i = Some b -> b <> a + 1) ->
     kept = ids).
Proof.
  destruct ids as [|id ids].
  - exists []. split_and!; [reflexivity|constructor|reflexivity|reflexivity].
  - destruct (fold_list_step ids [] id) as (kept & Hsub & Hfold & Hall).
    exists (id :: kept). split_and!.
    + unfold ranges_of_list. simpl. rewrite list_step_nil. exact Hfold.
    + by apply sublist_skip.
    + reflexivity.
    + intros Hgap. f_equal. by apply Hall.
Qed.

(** X16: [delMessagesList] asks [delMessages] for single identifiers only:
    a sublist of the list given that starts with its first identifier, and
    the whole list when no identifier is one more than the one before it.
    An identifier that follows the first by one is left out: extending a
    range is the branch that is commented out in the source. *)
Theorem delMessagesList_single_ranges
    (L : Z) (w : World) (ids : list Z) (hard : option bool) (reply : Promise Ctrl) :
  (exists kept,
     delMessagesList L ids hard reply w
       = delMessages L (map single kept) hard reply w /\
     sublist kept ids /\
     head kept = head ids /\
     ((forall i a b, ids !! i = Some a -> ids !! S i = Some b -> b <> a + 1) ->
      kept = ids)) /\
  (forall a rest,
     delMessagesList L (a :: a + 1 :: rest) hard reply w
     = delMessagesList L (a :: rest) hard reply w).
Proof.
  split.
  - destruct (ranges_of_list_kept ids) as (kept & Hr & Hsub & Hhd & Hall).
    exists kept. unfold delMessagesList. rewrite Hr. auto.
  - intros a rest. unfold delMessagesList, ranges_of_list. simpl.
    rewrite list_step_nil.
    change [single a] with ([] ++ [single a]).
    rewrite list_step_snoc. by rewrite Z.eqb_refl.
Qed.

(** ** More on [note] *)

(** The three ways [note] can go. *)
Lemma note_cases (w : World) (what : What) (s : Z) :
  (current_user w = None /\
   note what s w =
     (Normal tt,
      with_trace (fun t => t ++
        TinodeLogger (String.append "ERROR: note(): user not found "
                                    (currentUserID (tinode w))) None
        :: me_update w what s) w)) \/
  (exists user,
     current_user w = Some user /\
     (watermark what user = None \/ watermark what user = Some 0 \/
      exists v, watermark what user = Some v /\ v < s) /\
     note what s w =
       (Normal tt,
        with_trace (fun t => t ++
          (if subscribed (topic w) then TinodeNote (name (topic w)) what s
           else TinodeLogger "INFO: Not sending {note} on inactive topic" None)
          :: me_update w what s)
          (with_topic (with_users
             (<[currentUserID (tinode w) := set_watermark what s user]>
                (users (topic w)))) w))) \/
  (exists user v,
     current_user w = Some user /\
     watermark what user = Some v /\ v <> 0 /\ s <= v /\
     note what s w =
       (Normal tt, with_trace (fun t => t ++ me_update w what s) w)).
Proof.
  destruct (current_user w) as [user|] eqn:Hu.
  2:{ left. split; [reflexivity|]. by apply note_missing. }
  right. rewrite (note_present w what s user Hu).
  destruct (watermark what user) as [v|] eqn:Hw.
  - destruct (Z.eqb_spec v 0) as [->|Hv0].
    + left. exists user. split_and!; [reflexivity|auto|]. reflexivity.
    + destruct (Z.ltb_spec v s) as [Hlt|Hge].
      * left. exists user. split_and!; [reflexivity|eauto|].
        simpl. destruct (Z.eqb_spec v 0); [done|]. simpl.
        destruct (Z.ltb_spec v s); [done|lia].
      * right. exists user, v. split_and!; auto.
        simpl. destruct (Z.eqb_spec v 0); [done|]. simpl.
        destruct (Z.ltb_spec v s); [lia|done].
  - left. exists user. split_and!; [reflexivity|auto|]. reflexivity.
Qed.

(** X17: [note] changes the named watermark of the current user's record
    at most: the other watermark, the records of the other users, the rest
    of the topic and the packets are what they were. *)
Theorem note_changes_one_watermark (w : World) (what : What) (s : Z) :
  heap (run (note what s) w) = heap w /\
  tinode (run (note what s) w) = tinode w /\
  name (topic (run (note what s) w)) = name (topic w) /\
  subscribed (topic (run (note what s) w)) = subscribed (topic w) /\
  messages (topic (run (note what s) w)) = messages (topic w) /\
  maxSeq (topic (run (note what s) w)) = maxSeq (topic w) /\
  maxDel (topic (run (note what s) w)) = maxDel (topic w) /\
  (forall uid, uid <> currentUserID (tinode w) ->
     users (topic (run (note what s) w)) !! uid = users (topic w) !! uid) /\
  (watermark (other what) <$> current_user (run (note what s) w))
    = (watermark (other what) <$> current_user w).
Proof.
  unfold run, current_user.
  destruct (note_cases w what s)
    as [[Hu Heq]|[(user & Hu & _ & Heq)|(user & v & Hu & _ & _ & _ & Heq)]];
    rewrite Heq; simpl; split_and!; try reflexivity.
  - intros uid Hne. by rewrite lookup_insert_ne.
  - rewrite lookup_insert_eq. unfold current_user in Hu. rewrite Hu.
    by destruct what.
Qed.

(** X18: a second [note] with the same watermark and the same [seq], other
    than 0, sends nothing and leaves the topic as the first call left it. *)
Theorem note_twice (w : World) (what : What) (s : Z) :
  s <> 0 ->
  notes_sent (trace (run (note what s) (run (note what s) w)))
    = notes_sent (trace (run (note what s) w)) /\
  topic (run (note what s) (run (note what s) w)) = topic (run (note what s) w).
Proof.
  intros Hs.
  assert (Hskip : forall w1,
            (current_user w1 = None \/
             exists user v, current_user w1 = Some user /\
                            watermark what user = Some v /\ v <> 0 /\ s <= v) ->
            notes_sent (trace (run (note what s) w1)) = notes_sent (trace w1) /\
            topic (run (note what s) w1) = topic w1).
  { intros w1 [Hu|(user & v & Hu & Hw & Hv & Hle)].
    - unfold run. rewrite (note_missing w1 what s Hu). simpl.
      split; [|reflexivity].
      rewrite notes_sent_app. simpl.
      change (List.filter is_note_sent (me_update w1 what s))
        with (notes_sent (me_update w1 what s)).
      by rewrite notes_sent_me_update, app_nil_r.
    - destruct (note_skips w1 what s user Hu) as [Ht Hn]; [exists v; auto|]. auto. }
  apply Hskip. unfold run.
  destruct (note_cases w what s)
    as [[Hu Heq]|[(user & Hu & _ & Heq)|(user & v & Hu & Hw & Hv & Hle & Heq)]];
    rewrite Heq; unfold current_user in *; simpl.
  - by left.
  - right. exists (set_watermark what s user), s.
    rewrite lookup_insert_eq. split_and!; [reflexivity|by destruct what|exact Hs|lia].
  - right. exists user, v. auto.
Qed.

Lemma me_updates_app (t1 t2 : list Event) :
  me_updates (t1 ++ t2) = me_updates t1 ++ me_updates t2.
Proof. apply List.filter_app. Qed.

Lemma me_updates_me_update (w : World) (what : What) (s : Z) :
  me_updates (me_update w what s) = me_update w what s.
Proof. unfold me_update. by destruct (hasMeTopic _). Qed.

(** X19: with a 'me' topic, [note] passes the topic's name, the watermark
    and the [seq] on to it once, whether or not a record was found or a
    watermark moved; without one it makes no such call. *)
Theorem note_always_tells_me_topic (w : World) (what : What) (s : Z) :
  me_updates (trace (run (note what s) w)) =
    me_updates (trace w) ++
    (if hasMeTopic (tinode w)
     then [MeSetMsgReadRecv (name (topic w)) what s] else []).
Proof.
  unfold run.
  destruct (note_cases w what s)
    as [[Hu Heq]|[(user & Hu & _ & Heq)|(user & v & Hu & _ & _ & _ & Heq)]];
    rewrite Heq; simpl; rewrite me_updates_app.
  - change (me_updates (TinodeLogger ?m None :: me_update w what s))
      with (me_updates (me_update w what s)).
    by rewrite me_updates_me_update.
  - destruct (subscribed (topic w));
      match goal with
      | |- context [me_updates (?e :: me_update w what s)] =>
          change (me_updates (e :: me_update w what s))
            with (me_updates (me_update w what s))
      end; by rewrite me_updates_me_update.
  - by rewrite me_updates_me_update.
Qed.

(** ** [noteRead] *)

(** X20: [noteRead] of a positive [seq] is [note('read', seq)];
    [noteRead(0)] stands for [maxSeq], so that it moves a [read] watermark
    below [maxSeq] up to it; and with a negative [seq], or with 0 when
    [maxSeq] is not positive, nothing is done at all. *)
Theorem noteRead_acknowledges_positive (w : World) (s : Z) :
  (0 < s -> noteRead s w = note Read s w) /\
  (0 < maxSeq (topic w) -> noteRead 0 w = note Read (maxSeq (topic w)) w) /\
  (s < 0 \/ (s = 0 /\ maxSeq (topic w) <= 0) -> noteRead s w = (Normal tt, w)) /\
  (forall user,
     current_user w = Some user ->
     0 < maxSeq (topic w) ->
     (read user = None \/ exists v, read user = Some v /\ v < maxSeq (topic w)) ->
     (read <$> current_user (run (noteRead 0) w)) = Some (Some (maxSeq (topic w))) /\
     notes_sent (trace (run (noteRead 0) w)) =
       notes_sent (trace w) ++
       (if subscribed (topic w)
        then [TinodeNote (name (topic w)) Read (maxSeq (topic w))] else [])).
Proof.
  assert (H0 : 0 < maxSeq (topic w) -> noteRead 0 w = note Read (maxSeq (topic w)) w).
  { intros Hm. unfold noteRead. unfold_M. cbv beta. simpl.
    destruct (Z.ltb_spec 0 (maxSeq (topic w))); [reflexivity|lia]. }
  split_and!.
  - intros Hs. unfold noteRead. unfold_M. cbv beta.
    destruct (Z.eqb_spec s 0); [lia|]. simpl.
    destruct (Z.ltb_spec 0 s); [reflexivity|lia].
  - exact H0.
  - intros Hs. unfold noteRead. unfold_M. cbv beta.
    destruct (Z.eqb_spec s 0) as [->|Hne]; simpl.
    + destruct (Z.ltb_spec 0 (maxSeq (topic w))); [lia|reflexivity].
    + destruct (Z.ltb_spec 0 s); [lia|reflexivity].
  - intros user Hu Hm Hr. unfold run. rewrite (H0 Hm).
    destruct (note_writes w Read (maxSeq (topic w)) user Hu) as [Hu' Hn].
    { destruct Hr as [Hr|Hr]; [by left|by right; right]. }
    unfold run in Hu', Hn. rewrite Hu'. auto.
Qed.

(** ** [leave], [delTopic] *)

(** X21: [leave] refuses, without asking the session, only when the topic is not
    subscribed and [unsub] is not set.  Otherwise it asks the session and
    hands on its answer; after a success it calls [resetSub] and, with
    [unsub], [gone]; after a rejection neither. *)
Theorem leave_calls (s : Live) (unsub : bool) (reply : Promise Ctrl) :
  world (runS (leave unsub reply) s) = world s /\
  (subscribed (topic (world s)) = false -> unsub = false ->
   resultS (leave unsub reply) s = Normal (Rejected "Cannot leave inactive topic") /\
   calls (runS (leave unsub reply) s) = calls s) /\
  (subscribed (topic (world s)) = true \/ unsub = true ->
   resultS (leave unsub reply) s = Normal reply /\
   calls (runS (leave unsub reply) s) =
     calls s ++ TinodeLeave (name (topic (world s))) unsub ::
       match reply with
       | Resolved _ => ResetSub :: (if unsub then [Gone] else [])
       | Rejected _ => []
       end).
Proof.
  unfold runS, resultS, leave. unfold_LM.
  destruct (subscribed (topic (world s))) eqn:Hs, unsub, reply as [c|e];
    cbn; destruct s as [w cs p]; cbn in *; rewrite <- ?app_assoc;
    (split_and!; [reflexivity| |]); intros; try discriminate;
    try (split; reflexivity); try (destruct H; discriminate).
Qed.

(** X22: [delTopic] asks the session whether or not the topic is subscribed, and
    calls [resetSub] and [gone] only after a success. *)
Theorem delTopic_calls (s : Live) (hard : option bool) (reply : Promise Ctrl) :
  resultS (delTopic hard reply) s = Normal reply /\
  world (runS (delTopic hard reply) s) = world s /\
  calls (runS (delTopic hard reply) s) =
    calls s ++ TinodeDelTopic (name (topic (world s))) hard ::
      match reply with
      | Resolved _ => [ResetSub; Gone]
      | Rejected _ => []
      end.
Proof.
  unfold runS, resultS, delTopic. unfold_LM.
  destruct reply as [c|e]; cbn; rewrite <- ?app_assoc; auto.
Qed.

(** ** [delSubscription] *)

(** X23: after a successful [delSubscription(user)] the user has no record, the
    other records are what they were, and [onSubsUpdated] got the keys that
    are left. *)
Theorem delSubscription_removes_record
    (s : Live) (user : string) (ctrl : Ctrl) :
  subscribed (topic (world s)) = true ->
  resultS (delSubscription user (Resolved ctrl)) s = Normal (Resolved ctrl) /\
  result (subscriber user) (world (runS (delSubscription user (Resolved ctrl)) s))
    = Normal None /\
  (forall uid, uid <> user ->
     result (subscriber uid) (world (runS (delSubscription user (Resolved ctrl)) s))
     = result (subscriber uid) (world s)) /\
  calls (runS (delSubscription user (Resolved ctrl)) s) =
    calls s ++ [TinodeDelSubscription (name (topic (world s))) user;
                OnSubsUpdatedNext (dom (users (topic (world s))) ∖ {[user]})] /\
  heap (world (runS (delSubscription user (Resolved ctrl)) s)) = heap (world s) /\
  messages (topic (world (runS (delSubscription user (Resolved ctrl)) s)))
    = messages (topic (world s)) /\
  trace (world (runS (delSubscription user (Resolved ctrl)) s)) = trace (world s).
Proof.
  intros Hs. unfold runS, resultS, result, delSubscription, subscriber.
  unfold_LM. rewrite Hs. cbn.
  split_and!; try reflexivity.
  - by rewrite lookup_delete_eq.
  - intros uid Hne. by rewrite lookup_delete_ne.
  - rewrite <- app_assoc. simpl. by rewrite dom_delete_L.
Qed.

(** X24: [delSubscription] leaves the records alone and tells no one when the
    topic is not subscribed (the session is not asked either) or when the
    session rejects the request. *)
Theorem delSubscription_refused
    (s : Live) (user : string) (reply : Promise Ctrl) :
  (subscribed (topic (world s)) = false ->
   resultS (delSubscription user reply) s
     = Normal (Rejected "Cannot delete subscription in inactive topic") /\
   runS (delSubscription user reply) s = s) /\
  (forall e, subscribed (topic (world s)) = true -> reply = Rejected e ->
   resultS (delSubscription user reply) s = Normal (Rejected e) /\
   world (runS (delSubscription user reply) s) = world s /\
   calls (runS (delSubscription user reply) s) =
     calls s ++ [TinodeDelSubscription (name (topic (world s))) user]).
Proof.
  unfold runS, resultS, delSubscription. unfold_LM. split.
  - intros Hs. rewrite Hs. cbn. by destruct s.
  - intros e Hs ->. rewrite Hs. cbn. auto.
Qed.

(** ** [noteKeyPress] *)

(** X25: [noteKeyPress] tells the session on a subscribed topic, and only the
    logger otherwise. *)
Theorem noteKeyPress_only_when_subscribed (s : Live) :
  resultS noteKeyPress s = Normal tt /\
  topic (world (runS noteKeyPress s)) = topic (world s) /\
  calls (runS noteKeyPress s) =
    calls s ++ (if subscribed (topic (world s))
                then [TinodeNoteKeyPress (name (topic (world s)))] else []) /\
  trace (world (runS noteKeyPress s)) =
    trace (world s) ++
    (if subscribed (topic (world s)) then []
     else [TinodeLogger "INFO: Cannot send notification in inactive topic" None]).
Proof.
  unfold runS, resultS, noteKeyPress. unfold_LM.
  destruct (subscribed (topic (world s))); cbn; rewrite ?app_nil_r; auto.
Qed.

(** ** [setMeta] *)

Section SetMetaFacts.
Variable normalizeArray : list string -> list string.

(** X26: a rejection, or a reply whose code is 300 or more ("not modified"), ends
    [setMeta] with the request as its only call; the session is asked
    whether or not the topic is subscribed. *)
Theorem setMeta_not_modified
    (s : Live) (params : SetParams) (reply : Promise (option MetaCtrl)) :
  ((exists e, reply = Rejected e) \/
   (exists c k, reply = Resolved (Some c) /\ mc_code c = Some k /\ 300 <= k)) ->
  resultS (setMeta normalizeArray params reply) s = Normal reply /\
  world (runS (setMeta normalizeArray params reply) s) = world s /\
  calls (runS (setMeta normalizeArray params reply) s) =
    calls s ++ [setMeta_request normalizeArray s params].
Proof.
  intros [[e ->]|(c & k & -> & Hc & Hk)];
    unfold runS, resultS, setMeta, setMeta_request; unfold_LM.
  - auto.
  - unfold not_modified. rewrite Hc. simpl.
    destruct (Z.leb_spec 300 k); [|lia]. cbn. auto.
Qed.

(** What [setMeta] does with a reply that is there and is not "not
    modified". *)
Lemma setMeta_processed (s : Live) (params : SetParams) (c : MetaCtrl) :
  not_modified (Some c) = false ->
  setMeta normalizeArray params (Resolved (Some c)) s =
  (Normal (Resolved (Some c)),
   mkLive (world s)
     (calls s ++ setMeta_request normalizeArray s params ::
        match sp_sub params with
        | Some sub =>
            [ProcessMetaSub
               [mkSubParams
                  (if truthy_str (sub_user sub) then sub_user sub
                   else Some (currentUserID (tinode (world s))))
                  (sub_mode sub) (Some (name (topic (world s))))
                  (match acs_of c with Some a => Some a | None => sub_acs sub end)
                  (match acs_of c with Some _ => mc_ts c | None => sub_updated sub end)
                  true]]
        | None => []
        end ++
        match (match sp_sub params with
               | Some sub =>
                   if truthy_str (sub_user sub) then sp_desc params
                   else Some (default empty_desc (sp_desc params))
               | None => sp_desc params
               end) with
        | Some d =>
            [ProcessMetaDesc
               (match acs_of c with
                | Some a => mkDescParams (Some a) (mc_ts c)
                              (desc_private_arch d) (desc_rest d)
                | None => d
                end)]
        | None => []
        end ++
        match sp_tags params with
        | Some t => [ProcessMetaTags (normalizeArray t)]
        | None => []
        end ++
        match sp_cred params with
        | Some cr => [ProcessMetaCreds [cr] true]
        | None => []
        end)
     (private_data s)).
Proof.
  intros Hnm. unfold setMeta, setMeta_request, reply_acs, reply_ts, acs_of.
  unfold_LM. rewrite Hnm.
  destruct s as [w cs p]; cbn.
  destruct (sp_sub params) as [sub|]; cbn;
    destruct (mc_params c) as [[a|]|]; cbn;
    try destruct (truthy_str (sub_user sub)); cbn;
    destruct (sp_desc params) as [d|]; cbn;
    destruct (sp_tags params) as [t|]; cbn;
    destruct (sp_cred params) as [cr|]; cbn;
    rewrite <- ?app_assoc; reflexivity.
Qed.

(** X27: a subscription update without a user is the current user's own: the
    record processed carries the current user and the topic's name, and the
    description is processed too, an empty one if the caller gave none. *)
Theorem setMeta_own_subscription
    (s : Live) (params : SetParams) (sub : SubParams) (c : MetaCtrl) :
  not_modified (Some c) = false ->
  sp_sub params = Some sub ->
  truthy_str (sub_user sub) = false ->
  exists sub' desc' rest,
    calls (runS (setMeta normalizeArray params (Resolved (Some c))) s) =
      calls s ++ setMeta_request normalizeArray s params
        :: ProcessMetaSub [sub'] :: ProcessMetaDesc desc' :: rest /\
    sub_user sub' = Some (currentUserID (tinode (world s))) /\
    sub_topic sub' = Some (name (topic (world s))) /\
    sub_mode sub' = sub_mode sub /\
    sub_noForwarding sub' = true /\
    (sp_desc params = None -> acs_of c = None -> desc' = empty_desc) /\
    (forall a, acs_of c = Some a ->
       sub_acs sub' = Some a /\ sub_updated sub' = mc_ts c /\
       desc_acs desc' = Some a /\ desc_updated desc' = mc_ts c) /\
    resultS (setMeta normalizeArray params (Resolved (Some c))) s
      = Normal (Resolved (Some c)).
Proof.
  intros Hnm Hsub Hown. unfold runS, resultS.
  rewrite (setMeta_processed s params c Hnm). rewrite Hsub, Hown. cbn.
  do 3 eexists. split_and!; try reflexivity.
  - intros Hd Ha. rewrite Hd, Ha. reflexivity.
  - intros a Ha. rewrite Ha. auto.
Qed.

(** X28: without a subscription update, what is processed is what the caller
    gave, in the order description, tags, credential; the description takes
    the access mode and the time of the reply when the reply has an access
    mode, and the tags are the normalized ones that were sent. *)
Theorem setMeta_processing_order
    (s : Live) (params : SetParams) (c : MetaCtrl) :
  not_modified (Some c) = false ->
  sp_sub params = None ->
  calls (runS (setMeta normalizeArray params (Resolved (Some c))) s) =
    calls s ++ setMeta_request normalizeArray s params ::
      match sp_desc params with
      | Some d =>
          [ProcessMetaDesc
             (match acs_of c with
              | Some a => mkDescParams (Some a) (mc_ts c)
                            (desc_private_arch d) (desc_rest d)
              | None => d
              end)]
      | None => []
      end ++
      match sp_tags params with
      | Some t => [ProcessMetaTags (normalizeArray t)]
      | None => []
      end ++
      match sp_cred params with
      | Some cr => [ProcessMetaCreds [cr] true]
      | None => []
      end /\
  world (runS (setMeta normalizeArray params (Resolved (Some c))) s) = world s.
Proof.
  intros Hnm Hsub. unfold runS.
  rewrite (setMeta_processed s params c Hnm). rewrite Hsub. cbn. auto.
Qed.

(** X29: [invite] of a named user processes that user's subscription and no
    description. *)
Theorem invite_processes_subscription_only
    (s : Live) (userId : string) (mode : option string) (c : MetaCtrl) :
  not_modified (Some c) = false ->
  userId <> "" ->
  exists sub',
    calls (runS (invite normalizeArray (Some userId) mode (Resolved (Some c))) s) =
      calls s ++ [TinodeSetMeta (name (topic (world s)))
                    (mkSetParams None
                       (Some (mkSubParams (Some userId) mode None None None false))
                       None None);
                  ProcessMetaSub [sub']] /\
    sub_user sub' = Some userId /\
    sub_mode sub' = mode /\
    sub_topic sub' = Some (name (topic (world s))) /\
    sub_acs sub' = acs_of c.
Proof.
  intros Hnm Hu. unfold runS, invite.
  rewrite (setMeta_processed s _ c Hnm). cbn.
  assert (Ht : negb (String.eqb userId "") = true).
  { apply negb_true_iff. by apply String.eqb_neq. }
  rewrite Ht. eexists. split_and!; try reflexivity.
  by destruct (acs_of c).
Qed.

(** X30: [archive] asks for nothing when the topic already is in the state asked
    for; otherwise it sends [true] to archive and [DEL_CHAR], never [false],
    to undo it. *)
Theorem archive_request
    (s : Live) (a : bool) (reply : Promise (option MetaCtrl)) :
  ((exists pd, private_data s = Some pd /\ arch pd = Some a) ->
   archive normalizeArray a reply s = (Normal (Resolved (AlreadySo a)), s)) /\
  ((forall pd, private_data s = Some pd -> arch pd <> Some a) ->
   exists rest,
     calls (runS (archive normalizeArray a reply) s) =
       calls s ++ TinodeSetMeta (name (topic (world s)))
         (mkSetParams None None
            (Some (mkDescParams None None
                     (Some (if a then ArchTrue else ArchDel)) []))
            None) :: rest).
Proof.
  split.
  - intros (pd & Hp & Ha). unfold archive. unfold_LM. rewrite Hp.
    by rewrite bool_decide_eq_true_2.
  - intros Hne. unfold runS, archive.
    assert (Hb : match private_data s with
                 | Some pd => bool_decide (arch pd = Some a)
                 | None => false
                 end = false).
    { destruct (private_data s) as [pd|] eqn:Hp; [|reflexivity].
      apply bool_decide_eq_false_2. by apply Hne. }
    unfold bindS at 1. cbn. rewrite Hb.
    unfold bindS.
    destruct reply as [[c|]|e].
    + destruct (not_modified (Some c)) eqn:Hnm.
      * unfold setMeta. unfold_LM. rewrite Hnm. cbn. by eexists.
      * rewrite (setMeta_processed s _ c Hnm). cbn. unfold retS. cbn.
        by eexists.
    + unfold setMeta, reply_acs. unfold_LM. cbn. by eexists.
    + unfold setMeta. unfold_LM. cbn. by eexists.
Qed.
End SetMetaFacts.

(** ** The statements above at concrete inputs *)

Lemma publishMessage_confirmed_witness :
  subscribed (topic (three_cached true)) = true /\
  params (pub_ok 6) = Some (mkParams (Some 6) None) /\
  result (publishMessage 7%nat (Resolved (pub_ok 6))) (three_cached true)
    = Normal (Resolved (Some (pub_ok 6))) /\
  seq_at (heap (run (publishMessage 7%nat (Resolved (pub_ok 6))) (three_cached true)))
         7%nat = Some 6.
Proof.
  assert (H1 : subscribed (topic (three_cached true)) = true) by reflexivity.
  assert (H2 : params (pub_ok 6) = Some (mkParams (Some 6) None)) by reflexivity.
  assert (H3 : p_seq (mkParams (Some 6) None) = Some 6) by reflexivity.
  destruct (publishMessage_confirmed (three_cached true) 7%nat (pub_ok 6)
              (mkParams (Some 6) None) 6 H1 H2 H3) as (Hr & _ & _ & _ & Hs & _).
  split_and!; assumption.
Defined.

Lemma publishMessage_rejection_keeps_message_witness :
  subscribed (topic (three_cached true)) = true /\
  result (publishMessage 7%nat (Rejected "denied")) (three_cached true)
    = Normal (Resolved None) /\
  failed (deref (heap (run (publishMessage 7%nat (Rejected "denied"))
                           (three_cached true))) 7%nat) = true.
Proof.
  assert (H1 : subscribed (topic (three_cached true)) = true) by reflexivity.
  destruct (publishMessage_rejection_keeps_message (three_cached true) 7%nat
              "denied" H1) as (Hr & Hf & _).
  split_and!; assumption.
Defined.

Lemma publishMessage_fills_attachments_witness :
  subscribed (topic with_attachments) = true /\
  head_attachments (deref (heap with_attachments) 8%nat) = None /\
  head_attachments
    (deref (heap (run (publishMessage 8%nat (Resolved (pub_ok 6))) with_attachments))
           8%nat) = Some ["img1"; "img2"] /\
  head_attachments (deref (heap with_attachments) 9%nat) = Some ["img1"] /\
  head_attachments
    (deref (heap (run (publishMessage 9%nat (Rejected "denied")) with_attachments))
           9%nat) = Some ["img1"].
Proof.
  assert (H1 : subscribed (topic with_attachments) = true) by reflexivity.
  split_and!; [exact H1 | vm_compute; reflexivity | | vm_compute; reflexivity | ].
  - rewrite (publishMessage_fills_attachments with_attachments 8%nat
               (Resolved (pub_ok 6)) H1).
    vm_compute. reflexivity.
  - rewrite (publishMessage_fills_attachments with_attachments 9%nat
               (Rejected "denied") H1).
    vm_compute. reflexivity.
Defined.

Lemma publishMessage_touches_only_its_packet_witness :
  subscribed (topic (three_cached true)) = true /\
  topic (run (publishMessage 7%nat (Rejected "denied")) (three_cached true))
    = topic (three_cached true) /\
  publish_calls (trace (run (publishMessage 7%nat (Rejected "denied"))
                            (three_cached true))) =
    publish_calls (trace (three_cached true)) ++ [TinodePublishMessage 7%nat].
Proof.
  assert (H1 : subscribed (topic (three_cached true)) = true) by reflexivity.
  destruct (publishMessage_touches_only_its_packet (three_cached true) 7%nat
              (Rejected "denied") H1) as (Ht & _ & _ & _ & _ & _ & Hp).
  split_and!; assumption.
Defined.

Lemma inactive_topic_rejects_witness :
  subscribed (topic (three_cached false)) = false /\
  publishMessage 7%nat (Resolved (pub_ok 6)) (three_cached false) =
    (Normal (Rejected "Cannot publish on inactive topic"), three_cached false) /\
  delMessages example_LOCAL_SEQ_ID [bounded 3 5] None (Resolved (del_ok 1))
              (three_cached false) =
    (Normal (Rejected "Cannot delete messages in inactive topic"),
     three_cached false).
Proof.
  assert (H1 : subscribed (topic (three_cached false)) = false) by reflexivity.
  destruct (inactive_topic_rejects example_LOCAL_SEQ_ID (three_cached false) 7%nat
              [bounded 3 5] None (Resolved (pub_ok 6)) (Resolved (del_ok 1)) H1)
    as (Hp & _ & Hd).
  split_and!; assumption.
Defined.

Lemma publishDraft_queue_stamps_witness :
  negb true && negb (subscribed (topic (three_cached false))) = false /\
  noForwarding (deref (heap (three_cached false)) 7%nat) = false /\
  ts (deref (heap (run (publishDraft_queue 7%nat true) (three_cached false))) 7%nat)
    = Some (now (tinode (three_cached false))) /\
  from (deref (heap (run (publishDraft_queue 7%nat true) (three_cached false))) 7%nat)
    = Some (currentUserID (tinode (three_cached false))).
Proof.
  assert (H1 : negb true && negb (subscribed (topic (three_cached false))) = false)
    by reflexivity.
  assert (H2 : noForwarding (deref (heap (three_cached false)) 7%nat) = false)
    by (vm_compute; reflexivity).
  destruct (publishDraft_queue_stamps (three_cached false) 7%nat true H1 H2)
    as (Ht & Hf & _).
  split_and!; assumption.
Defined.

Lemma publishDraft_rejected_promise_not_sent_witness :
  noForwarding (deref (heap (three_cached true)) 7%nat) = false /\
  result (publishDraft 7%nat (Some (Rejected "upload failed")) (Resolved (pub_ok 6)))
         (three_cached true) = Normal (Resolved None) /\
  failed (deref (heap (run (publishDraft 7%nat (Some (Rejected "upload failed"))
                             (Resolved (pub_ok 6))) (three_cached true))) 7%nat)
    = true /\
  publish_calls (trace (run (publishDraft 7%nat (Some (Rejected "upload failed"))
                              (Resolved (pub_ok 6))) (three_cached true)))
    = publish_calls (trace (three_cached true)).
Proof.
  assert (H1 : noForwarding (deref (heap (three_cached true)) 7%nat) = false)
    by (vm_compute; reflexivity).
  destruct (publishDraft_rejected_promise_not_sent (three_cached true) 7%nat
              "upload failed" (Resolved (pub_ok 6)) H1) as (Hr & Hf & _ & _ & _ & Hp).
  split_and!; assumption.
Defined.

Lemma delMessages_maxDel_witness :
  result (delMessages example_LOCAL_SEQ_ID [bounded 3 5] None (Resolved (del_ok 4)))
         (three_cached true) = Normal (Resolved (del_ok 4)) /\
  maxDel (topic (run (delMessages example_LOCAL_SEQ_ID [bounded 3 5] None
                        (Resolved (del_ok 4))) (three_cached true)))
    = Z.max (maxDel (topic (three_cached true))) 4.
Proof.
  assert (H1 : result (delMessages example_LOCAL_SEQ_ID [bounded 3 5] None
                         (Resolved (del_ok 4))) (three_cached true)
               = Normal (Resolved (del_ok 4))) by (vm_compute; reflexivity).
  split; [exact H1|].
  exact (proj2 (proj2 (delMessages_maxDel example_LOCAL_SEQ_ID (three_cached true)
                         [bounded 3 5] None (Resolved (del_ok 4))))
           (del_ok 4) (mkParams None (Some 4)) 4 H1 eq_refl eq_refl).
Defined.

Lemma delMessages_flushes_every_range_once_witness :
  delMessages example_LOCAL_SEQ_ID [single 3; bounded 4 6] None
              (Resolved (del_ok 1)) (three_cached true)
  = (Normal (Resolved (del_ok 1)),
     run (delMessages example_LOCAL_SEQ_ID [single 3; bounded 4 6] None
                      (Resolved (del_ok 1))) (three_cached true)) /\
  exists added,
    flush_calls (trace (run (delMessages example_LOCAL_SEQ_ID [single 3; bounded 4 6]
                               None (Resolved (del_ok 1))) (three_cached true)))
      = flush_calls (trace (three_cached true)) ++ added /\
    Permutation added (map flush_call_of [single 3; bounded 4 6]).
Proof.
  assert (H : delMessages example_LOCAL_SEQ_ID [single 3; bounded 4 6] None
                (Resolved (del_ok 1)) (three_cached true)
              = (Normal (Resolved (del_ok 1)),
                 run (delMessages example_LOCAL_SEQ_ID [single 3; bounded 4 6] None
                        (Resolved (del_ok 1))) (three_cached true)))
    by (vm_compute; reflexivity).
  split; [exact H|].
  exact (proj1 (delMessages_flushes_every_range_once example_LOCAL_SEQ_ID
                  (three_cached true) _ [single 3; bounded 4 6] None
                  (Resolved (del_ok 1)) (del_ok 1) H)).
Defined.

Lemma delMessages_request_covers_server_ranges_witness :
  subscribed (topic (three_cached true)) = true /\
  (exists r, In r [bounded 300000000 300000005; bounded 3 5] /\
             low r < example_LOCAL_SEQ_ID) /\
  exists sent,
    del_request_of example_LOCAL_SEQ_ID (three_cached true)
                   [bounded 300000000 300000005; bounded 3 5] None
    = [TinodeDelMessages (name (topic (three_cached true))) sent None].
Proof.
  assert (H1 : subscribed (topic (three_cached true)) = true) by reflexivity.
  assert (H2 : exists r, In r [bounded 300000000 300000005; bounded 3 5] /\
                         low r < example_LOCAL_SEQ_ID).
  { exists (bounded 3 5). split; [right; left; reflexivity|reflexivity]. }
  split_and!; [exact H1|exact H2|].
  exact (proj2 (proj2 (delMessages_request_covers_server_ranges
                         example_LOCAL_SEQ_ID (three_cached true)
                         [bounded 300000000 300000005; bounded 3 5] None
                         (Resolved (del_ok 1)))) H1 H2).
Defined.

Lemma delMessages_reply_without_params_witness :
  subscribed (topic (three_cached true)) = true /\
  tosend_of example_LOCAL_SEQ_ID (maxSeq (topic (three_cached true)))
    (array_sort cmp_ranges [bounded 3 5]) <> [] /\
  params cancelled_result = None /\
  topic (run (delMessages example_LOCAL_SEQ_ID [bounded 3 5] None
                (Resolved cancelled_result)) (three_cached true))
    = topic (three_cached true).
Proof.
  assert (H1 : subscribed (topic (three_cached true)) = true) by reflexivity.
  assert (H2 : tosend_of example_LOCAL_SEQ_ID (maxSeq (topic (three_cached true)))
                 (array_sort cmp_ranges [bounded 3 5]) <> [])
    by (vm_compute; discriminate).
  assert (H3 : params cancelled_result = None) by reflexivity.
  destruct (delMessages_reply_without_params example_LOCAL_SEQ_ID
              (three_cached true) [bounded 3 5] None cancelled_result H1 H2 H3)
    as (_ & Ht & _).
  split_and!; assumption.
Defined.

Lemma delMessagesAll_nothing_to_delete_witness :
  maxSeq (topic two_drafts) <= 0 /\
  result (delMessagesAll example_LOCAL_SEQ_ID None (Resolved (del_ok 1))) two_drafts
    = Normal (Resolved None) /\
  run (delMessagesAll example_LOCAL_SEQ_ID None (Resolved (del_ok 1))) two_drafts
    = two_drafts.
Proof.
  assert (H1 : maxSeq (topic two_drafts) <= 0) by (simpl; lia).
  destruct (delMessagesAll_nothing_to_delete example_LOCAL_SEQ_ID two_drafts None
              (Resolved (del_ok 1)) H1) as (Hr & Hw).
  split_and!; assumption.
Defined.

Lemma delMessagesAll_one_range_witness :
  subscribed (topic (three_cached true)) = true /\
  0 < maxSeq (topic (three_cached true)) /\
  1 < example_LOCAL_SEQ_ID /\
  exists r,
    del_requests (trace (run (delMessagesAll example_LOCAL_SEQ_ID None
                                (Resolved (del_ok 1))) (three_cached true))) =
      del_requests (trace (three_cached true))
        ++ [TinodeDelMessages (name (topic (three_cached true))) [r] None] /\
    low r = 1 /\ hi r = Some (maxSeq (topic (three_cached true)) + 1).
Proof.
  assert (H1 : subscribed (topic (three_cached true)) = true) by reflexivity.
  assert (H2 : 0 < maxSeq (topic (three_cached true))) by reflexivity.
  assert (H3 : 1 < example_LOCAL_SEQ_ID) by reflexivity.
  destruct (delMessagesAll_one_range example_LOCAL_SEQ_ID (three_cached true) None
              (Resolved (del_ok 1)) H1 H2 H3) as (r & Hreq & Hlow & Hhi & _).
  split_and!; [exact H1|exact H2|exact H3|].
  exists r. split_and!; assumption.
Defined.

Lemma delMessagesList_single_ranges_witness :
  (forall i a b, [3; 5] !! i = Some a -> [3; 5] !! S i = Some b -> b <> a + 1) /\
  delMessagesList example_LOCAL_SEQ_ID [3; 5] None (Resolved (del_ok 1))
                  (three_cached true)
  = delMessages example_LOCAL_SEQ_ID (map single [3; 5]) None (Resolved (del_ok 1))
                (three_cached true).
Proof.
  assert (H1 : forall i a b, [3; 5] !! i = Some a -> [3; 5] !! S i = Some b ->
                             b <> a + 1).
  { intros [|[|i]] a b Ha Hb; simpl in *; try discriminate.
    injection Ha as <-. injection Hb as <-. lia. }
  split; [exact H1|].
  destruct (proj1 (delMessagesList_single_ranges example_LOCAL_SEQ_ID
                     (three_cached true) [3; 5] None (Resolved (del_ok 1))))
    as (kept & Heq & _ & _ & Hall).
  rewrite Heq, (Hall H1). reflexivity.
Defined.

Lemma note_twice_witness :
  5 <> 0 /\
  notes_sent (trace (run (note Read 5)
                       (run (note Read 5) (with_reader true (mkUser None None)))))
    = notes_sent (trace (run (note Read 5) (with_reader true (mkUser None None)))).
Proof.
  assert (H1 : 5 <> 0) by lia.
  split; [exact H1|].
  exact (proj1 (note_twice (with_reader true (mkUser None None)) Read 5 H1)).
Defined.

Lemma noteRead_acknowledges_positive_witness :
  current_user (with_reader true (mkUser (Some 7) (Some 2)))
    = Some (mkUser (Some 7) (Some 2)) /\
  0 < maxSeq (topic (with_reader true (mkUser (Some 7) (Some 2)))) /\
  (read <$> current_user
     (run (noteRead 0) (with_reader true (mkUser (Some 7) (Some 2)))))
    = Some (Some (maxSeq (topic (with_reader true (mkUser (Some 7) (Some 2)))))).
Proof.
  assert (H1 : current_user (with_reader true (mkUser (Some 7) (Some 2)))
               = Some (mkUser (Some 7) (Some 2))) by (vm_compute; reflexivity).
  assert (H2 : 0 < maxSeq (topic (with_reader true (mkUser (Some 7) (Some 2)))))
    by reflexivity.
  split_and!; [exact H1|exact H2|].
  refine (proj1 (proj2 (proj2 (proj2 (noteRead_acknowledges_positive
            (with_reader true (mkUser (Some 7) (Some 2))) 0)))
            (mkUser (Some 7) (Some 2)) H1 H2 _)).
  right. exists 2. split; [reflexivity|reflexivity].
Defined.

Lemma leave_calls_witness :
  subscribed (topic (world (live (three_cached false)))) = false /\
  resultS (leave false (Resolved (del_ok 0))) (live (three_cached false))
    = Normal (Rejected "Cannot leave inactive topic") /\
  calls (runS (leave true (Resolved (del_ok 0))) (live (three_cached false)))
    = [TinodeLeave "grpA" true; ResetSub; Gone].
Proof.
  assert (H1 : subscribed (topic (world (live (three_cached false)))) = false)
    by reflexivity.
  split_and!; [exact H1| |].
  - exact (proj1 (proj1 (proj2 (leave_calls (live (three_cached false)) false
                                  (Resolved (del_ok 0)))) H1 eq_refl)).
  - exact (proj2 (proj2 (proj2 (leave_calls (live (three_cached false)) true
                                  (Resolved (del_ok 0)))) (or_intror eq_refl))).
Defined.

Lemma delSubscription_removes_record_witness :
  subscribed (topic (world (live (with_reader true (mkUser (Some 7) (Some 2))))))
    = true /\
  result (subscriber "usrA")
    (world (runS (delSubscription "usrA" (Resolved (del_ok 0)))
                 (live (with_reader true (mkUser (Some 7) (Some 2))))))
    = Normal None.
Proof.
  assert (H1 : subscribed (topic (world (live (with_reader true
                 (mkUser (Some 7) (Some 2)))))) = true) by reflexivity.
  destruct (delSubscription_removes_record
              (live (with_reader true (mkUser (Some 7) (Some 2)))) "usrA"
              (del_ok 0) H1) as (_ & Hs & _).
  split; assumption.
Defined.

Lemma delSubscription_refused_witness :
  subscribed (topic (world (live (with_reader false (mkUser (Some 7) (Some 2))))))
    = false /\
  runS (delSubscription "usrA" (Resolved (del_ok 0)))
       (live (with_reader false (mkUser (Some 7) (Some 2))))
    = live (with_reader false (mkUser (Some 7) (Some 2))) /\
  world (runS (delSubscription "usrA" (Rejected "denied"))
              (live (with_reader true (mkUser (Some 7) (Some 2)))))
    = world (live (with_reader true (mkUser (Some 7) (Some 2)))).
Proof.
  assert (H1 : subscribed (topic (world (live (with_reader false
                 (mkUser (Some 7) (Some 2)))))) = false) by reflexivity.
  split_and!; [exact H1| |].
  - exact (proj2 (proj1 (delSubscription_refused
                           (live (with_reader false (mkUser (Some 7) (Some 2))))
                           "usrA" (Resolved (del_ok 0))) H1)).
  - exact (proj1 (proj2 (proj2 (delSubscription_refused
                           (live (with_reader true (mkUser (Some 7) (Some 2))))
                           "usrA" (Rejected "denied")) "denied" eq_refl eq_refl))).
Defined.

Lemma setMeta_not_modified_witness :
  (exists c k, Resolved (Some (mkMetaCtrl (Some 304) None None))
               = Resolved (Some c) /\ mc_code c = Some k /\ 300 <= k) /\
  calls (runS (setMeta drop_empty
                 (mkSetParams (Some ["a"; ""]) None (Some empty_desc) None)
                 (Resolved (Some (mkMetaCtrl (Some 304) None None))))
              (live (three_cached false)))
    = [TinodeSetMeta "grpA"
         (mkSetParams (Some ["a"]) None (Some empty_desc) None)].
Proof.
  assert (H1 : exists c k, Resolved (Some (mkMetaCtrl (Some 304) None None))
                 = Resolved (Some c) /\ mc_code c = Some k /\ 300 <= k).
  { exists (mkMetaCtrl (Some 304) None None), 304.
    split_and!; [reflexivity|reflexivity|lia]. }
  split; [exact H1|].
  exact (proj2 (proj2 (setMeta_not_modified drop_empty (live (three_cached false))
                         (mkSetParams (Some ["a"; ""]) None (Some empty_desc) None)
                         (Resolved (Some (mkMetaCtrl (Some 304) None None)))
                         (or_intror H1)))).
Defined.

Lemma setMeta_own_subscription_witness :
  not_modified (Some meta_ok) = false /\
  truthy_str (sub_user (mkSubParams None (Some "JRW") None None None false)) = false /\
  exists sub' desc' rest,
    calls (runS (setMeta drop_empty
                   (mkSetParams None
                      (Some (mkSubParams None (Some "JRW") None None None false))
                      None None)
                   (Resolved (Some meta_ok))) (live (three_cached true)))
      = calls (live (three_cached true))
          ++ setMeta_request drop_empty (live (three_cached true))
               (mkSetParams None
                  (Some (mkSubParams None (Some "JRW") None None None false))
                  None None)
          :: ProcessMetaSub [sub'] :: ProcessMetaDesc desc' :: rest /\
    sub_user sub' = Some "usrA".
Proof.
  assert (H1 : not_modified (Some meta_ok) = false) by reflexivity.
  assert (H3 : truthy_str (sub_user (mkSubParams None (Some "JRW") None None None
                                       false)) = false) by reflexivity.
  destruct (setMeta_own_subscription drop_empty (live (three_cached true))
              (mkSetParams None
                 (Some (mkSubParams None (Some "JRW") None None None false))
                 None None)
              (mkSubParams None (Some "JRW") None None None false)
              meta_ok H1 eq_refl H3)
    as (sub' & desc' & rest & Hc & Hu & _).
  split_and!; [exact H1|exact H3|].
  exists sub', desc', rest. split; assumption.
Defined.

Lemma setMeta_processing_order_witness :
  not_modified (Some meta_ok) = false /\
  calls (runS (setMeta drop_empty
                 (mkSetParams (Some ["a"; ""]) None (Some empty_desc) (Some "email"))
                 (Resolved (Some meta_ok))) (live (three_cached true)))
    = [TinodeSetMeta "grpA"
         (mkSetParams (Some ["a"]) None (Some empty_desc) (Some "email"));
       ProcessMetaDesc (mkDescParams (Some "JRWPS") (Some 3000) None []);
       ProcessMetaTags ["a"];
       ProcessMetaCreds ["email"] true].
Proof.
  assert (H1 : not_modified (Some meta_ok) = false) by reflexivity.
  split; [exact H1|].
  exact (proj1 (setMeta_processing_order drop_empty (live (three_cached true))
                  (mkSetParams (Some ["a"; ""]) None (Some empty_desc) (Some "email"))
                  meta_ok H1 eq_refl)).
Defined.

Lemma invite_processes_subscription_only_witness :
  not_modified (Some meta_ok) = false /\
  "usrB" <> "" /\
  exists sub',
    calls (runS (invite drop_empty (Some "usrB") (Some "JRW")
                   (Resolved (Some meta_ok))) (live (three_cached true)))
      = calls (live (three_cached true))
          ++ [TinodeSetMeta (name (topic (world (live (three_cached true)))))
                (mkSetParams None
                   (Some (mkSubParams (Some "usrB") (Some "JRW") None None None false))
                   None None);
              ProcessMetaSub [sub']] /\
    sub_user sub' = Some "usrB".
Proof.
  assert (H1 : not_modified (Some meta_ok) = false) by reflexivity.
  assert (H2 : "usrB" <> "") by discriminate.
  destruct (invite_processes_subscription_only drop_empty (live (three_cached true))
              "usrB" (Some "JRW") meta_ok H1 H2) as (sub' & Hc & Hu & _).
  split_and!; [exact H1|exact H2|].
  exists sub'. split; assumption.
Defined.

Lemma archive_request_witness :
  (exists pd, private_data archived = Some pd /\ arch pd = Some true) /\
  archive drop_empty true (Resolved (Some meta_ok)) archived
    = (Normal (Resolved (AlreadySo true)), archived) /\
  (forall pd, private_data archived = Some pd -> arch pd <> Some false) /\
  exists rest,
    calls (runS (archive drop_empty false (Resolved (Some meta_ok))) archived) =
      calls archived ++ TinodeSetMeta (name (topic (world archived)))
        (mkSetParams None None
           (Some (mkDescParams None None (Some ArchDel) [])) None) :: rest.
Proof.
  assert (H1 : exists pd, private_data archived = Some pd /\ arch pd = Some true).
  { eexists. split; reflexivity. }
  assert (H2 : forall pd, private_data archived = Some pd -> arch pd <> Some false).
  { intros pd [= <-]. discriminate. }
  split_and!; [exact H1| |exact H2|].
  - exact (proj1 (archive_request drop_empty archived true
                    (Resolved (Some meta_ok))) H1).
  - exact (proj2 (archive_request drop_empty archived false
                    (Resolved (Some meta_ok))) H2).
Defined.
